(** * snntorch/energy_estimation/model_statistics.py

    A shallow embedding of [ModelStatistics]: the accumulation loop of
    [__init__], the unit conversion helpers [to_readable] and
    [format_output_num], and the report rendered by [__repr__].

    Python integers are unbounded, so they are [Z]; Python floats are IEEE 754
    binary64 values, modelled by [spec_float] with 53 bits of precision;
    exceptions are an explicit error result. *)

From Stdlib Require Import ZArith List String Ascii Bool Lia.
From Stdlib Require Import Floats.SpecFloat DecimalString Permutation.
Import ListNotations.
Open Scope Z_scope.

Set Implicit Arguments.

(** ** Exceptions *)

(** The built-in exceptions the code of this file can raise. *)
Inductive PyExn : Type :=
| IndexError
| KeyError
| OverflowError
| ValueError
| ZeroDivisionError.

Inductive result (A : Type) : Type :=
| Ok (a : A)
| Raise (e : PyExn).

Arguments Ok {A} a.
Arguments Raise {A} e.

Definition bind {A B : Type} (r : result A) (k : A -> result B) : result B :=
  match r with
  | Ok a => k a
  | Raise e => Raise e
  end.

Notation "x <- r ;; k" := (bind r (fun x => k))
  (at level 61, r at next level, right associativity).

Definition succeeds {A : Type} (r : result A) : bool :=
  match r with
  | Ok _ => true
  | Raise _ => false
  end.

(** ** Units (enums.py) *)

(** Modelled from the spec: enums.py is not among the sources.  The members
    are the ones model_statistics.py names (AUTO, TERABYTES, GIGABYTES,
    MEGABYTES, NONE) and the kilobyte unit the spec mentions. *)
Inductive Units : Type :=
| AUTO
| KILOBYTES
| MEGABYTES
| GIGABYTES
| TERABYTES
| NONE.

Definition Units_eqb (a b : Units) : bool :=
  match a, b with
  | AUTO, AUTO | KILOBYTES, KILOBYTES | MEGABYTES, MEGABYTES
  | GIGABYTES, GIGABYTES | TERABYTES, TERABYTES | NONE, NONE => true
  | _, _ => false
  end.

(** ** Floats *)

(** A Python [float] is a binary64 value. *)
Definition float : Type := spec_float.
Definition prec : Z := 53.
Definition emax : Z := 1024.

(** The float nearest to an integer, ties to even; an infinity when the
    rounded value does not fit. *)
Definition float_of_int (n : Z) : float := binary_normalize prec emax n 0 false.

(** The conversion of an [int] operand to [float]: it raises
    [OverflowError] instead of returning an infinity. *)
Definition int_to_float (n : Z) : result float :=
  match float_of_int n with
  | S754_infinity _ => Raise OverflowError
  | x => Ok x
  end.

(** The integers that convert are those of absolute value below
    [float_limit], half an ulp above the largest float. *)
Definition float_limit : Z := 2 ^ 1024 - 2 ^ 970.

(** The literals [1e12], [1e9] and [1e6], each an exact power of ten. *)
Definition f1e12 : float := Eval vm_compute in float_of_int (10 ^ 12).
Definition f1e9 : float := Eval vm_compute in float_of_int (10 ^ 9).
Definition f1e6 : float := Eval vm_compute in float_of_int (10 ^ 6).

Definition float_is_zero (x : float) : bool :=
  match x with
  | S754_zero _ => true
  | _ => false
  end.

(** [num / d] with [num] an [int] and [d] a [float]: the integer is
    converted first, then a zero divisor raises, then the quotient is the
    correctly rounded one. *)
Definition truediv (num : Z) (d : float) : result float :=
  a <- int_to_float num ;;
  if float_is_zero d then Raise ZeroDivisionError
  else Ok (SFdiv prec emax a d).

(** [num >= x] with [num] an [int] and [x] a [float]: Python compares the
    two exactly, without rounding the integer. *)
Definition int_ge_float (num : Z) (x : float) : bool :=
  match x with
  | S754_nan => false
  | S754_infinity s => s
  | S754_zero _ => 0 <=? num
  | S754_finite s m e =>
      if 0 <=? e then cond_Zopp s (Zpos m) * 2 ^ e <=? num
      else cond_Zopp s (Zpos m) <=? num * 2 ^ (- e)
  end.

(** [x.is_integer()] *)
Definition is_integer (x : float) : bool :=
  match x with
  | S754_zero _ => true
  | S754_finite _ m e => if 0 <=? e then true else Zpos m mod 2 ^ (- e) =? 0
  | S754_infinity _ | S754_nan => false
  end.

(** [int(x)]: truncation towards zero. *)
Definition int_of_float (x : float) : result Z :=
  match x with
  | S754_zero _ => Ok 0
  | S754_finite s m e =>
      Ok (cond_Zopp s (if 0 <=? e then Zpos m * 2 ^ e else Zpos m / 2 ^ (- e)))
  | S754_infinity _ => Raise OverflowError
  | S754_nan => Raise ValueError
  end.

(** A zero or a finite float: neither an infinity nor a NaN. *)
Definition is_finite (x : float) : bool :=
  match x with
  | S754_zero _ | S754_finite _ _ _ => true
  | S754_infinity _ | S754_nan => false
  end.

(** ** Number formatting *)

Definition digit_char (d : Z) : ascii := ascii_of_N (48 + Z.to_N d).

Definition decimal_digits (n : Z) : list ascii :=
  list_ascii_of_string (NilEmpty.string_of_uint (N.to_uint (Z.to_N n))).

(** The [,] option: a comma before every group of three digits, counted
    from the right.  [commas_rev] works on the reversed digits; [cnt] is the
    number of digits already emitted in the current group. *)
Fixpoint commas_rev (cnt : nat) (l : list ascii) : list ascii :=
  match l with
  | [] => []
  | c :: tl =>
      if Nat.eqb cnt 3 then ","%char :: c :: commas_rev 1 tl
      else c :: commas_rev (S cnt) tl
  end.

Definition thousands (digits : list ascii) : list ascii :=
  rev (commas_rev 0 (rev digits)).

(** [format(z, ",d")] *)
Definition format_comma_d (z : Z) : string :=
  string_of_list_ascii
    ((if z <? 0 then ["-"%char] else []) ++ thousands (decimal_digits (Z.abs z))).

(** [a / b] rounded to the nearest integer, ties to even ([0 < b]). *)
Definition div_half_even (a b : Z) : Z :=
  let q := a / b in
  match 2 * (a mod b) ?= b with
  | Lt => q
  | Gt => q + 1
  | Eq => if Z.even q then q else q + 1
  end.

(** [m * 2^e * 100] rounded to the nearest integer, ties to even: the
    hundredths of the value printed by ".2f", which rounds the exact binary
    value. *)
Definition hundredths (m : positive) (e : Z) : Z :=
  if 0 <=? e then Zpos m * 2 ^ e * 100
  else div_half_even (Zpos m * 100) (2 ^ (- e)).

(** The text of [h] hundredths with sign [s]. *)
Definition fixed2 (s : bool) (h : Z) : string :=
  string_of_list_ascii
    ((if s then ["-"%char] else []) ++ thousands (decimal_digits (h / 100)) ++
     ["."%char; digit_char (h mod 100 / 10); digit_char (h mod 10)]).

(** [format(x, ",.2f")] *)
Definition format_comma_2f (x : float) : string :=
  match x with
  | S754_zero s => fixed2 s 0
  | S754_finite s m e => fixed2 s (hundredths m e)
  | S754_infinity s => if s then "-inf"%string else "inf"%string
  | S754_nan => "nan"%string
  end.

(** What the formatted texts look like: an integer text is made of digits,
    commas and a sign; a text with two decimals is an integer text, a point
    and two digits. *)
Definition is_digit (c : ascii) : bool :=
  ((48 <=? N_of_ascii c) && (N_of_ascii c <=? 57))%N.

Definition integer_char (c : ascii) : Prop :=
  is_digit c = true \/ c = ","%char \/ c = "-"%char.

Definition integer_text (s : string) : Prop :=
  Forall integer_char (list_ascii_of_string s).

Definition two_decimals (s : string) : Prop :=
  exists (whole : list ascii) (d1 d2 : ascii),
    s = string_of_list_ascii (whole ++ ["."%char; d1; d2]) /\
    Forall integer_char whole /\ is_digit d1 = true /\ is_digit d2 = true.

(** ** Unit conversion (static methods of [ModelStatistics]) *)

Section Conversion.
(** FormattingOptions.py is not among the sources: the table
    [CONVERSION_FACTORS] it defines is a parameter, a dictionary from units
    to factors; so is the text [f"{units_used}"] of a unit. *)
Variable CONVERSION_FACTORS : Units -> option float.
Variable format_Units : Units -> string.

Definition getitem (d : Units -> option float) (k : Units) : result float :=
  match d k with
  | Some v => Ok v
  | None => Raise KeyError
  end.

(** [float_to_megabytes]: [num * 4 / 1e6] *)
Definition float_to_megabytes (num : Z) : result float :=
  truediv (num * 4) f1e6.

(** [to_megabytes]: [num / 1e6] *)
Definition to_megabytes (num : Z) : result float :=
  truediv num f1e6.

Definition to_readable (num : Z) (units : Units) : result (Units * float) :=
  if Units_eqb units AUTO then
    if int_ge_float num f1e12 then
      x <- truediv num f1e12 ;; Ok (TERABYTES, x)
    else if int_ge_float num f1e9 then
      x <- truediv num f1e9 ;; Ok (GIGABYTES, x)
    else
      x <- truediv num f1e6 ;; Ok (MEGABYTES, x)
  else
    factor <- getitem CONVERSION_FACTORS units ;;
    x <- truediv num factor ;;
    Ok (units, x).

(** After [if converted_num.is_integer(): converted_num = int(converted_num)]
    the variable holds an [int] or a [float]. *)
Inductive PyNumber : Type :=
| PyInt (z : Z)
| PyFloat (x : float).

(** [f"{converted_num:,{fmt}}"], where [fmt] is ["d"] exactly when
    [converted_num] is an [int] and [".2f"] otherwise. *)
Definition format_number (converted_num : PyNumber) : string :=
  match converted_num with
  | PyInt z => format_comma_d z
  | PyFloat x => format_comma_2f x
  end.

Definition units_display (units_used : Units) : string :=
  if Units_eqb units_used NONE then ""%string
  else (" (" ++ format_Units units_used ++ ")")%string.

Definition format_output_num (num : Z) (units : Units) : result string :=
  r <- to_readable num units ;;
  let '(units_used, converted_num) := r in
  converted_num <-
    (if is_integer converted_num
     then z <- int_of_float converted_num ;; Ok (PyInt z)
     else Ok (PyFloat converted_num)) ;;
  Ok (units_display units_used ++ ": " ++ format_number converted_num)%string.
End Conversion.

(** ** Sums over a sequence of records *)

Definition Zsum (l : list Z) : Z := fold_right Z.add 0 l.

(** The sum of [f] over the elements of [l] that satisfy [p]. *)
Definition sum_over {A : Type} (f : A -> Z) (p : A -> bool) (l : list A) : Z :=
  Zsum (map f (filter p l)).

(** ** Layer records (layer_info.py) *)

Module LayerInfo.
Section Fields.
Variable Energy : Type.

(** Modelled from the spec: layer_info.py is not among the sources.  The
    record holds the attributes [__init__] reads; [leftover_params] and
    [leftover_trainable_params] hold what the methods of the same name
    return for this record. *)
Record t : Type := mk {
  is_leaf_layer : bool;
  is_recursive : bool;
  num_params : Z;
  trainable_params : Z;
  macs : Z;
  output_bytes : Z;
  param_bytes : Z;
  leftover_params : Z;
  leftover_trainable_params : Z;
  total_energy_contributions : list Energy
}.
End Fields.
End LayerInfo.

(** ** The statistics object *)

Section Statistics.
(** [input_size] is [Any]; device profiles, energies and the formatting
    collaborator are used only through the operations below. *)
Variables InputSize DeviceProfile Energy FormattingOptions : Type.

(** [FormattingOptions.set_layer_name_width] mutates the collaborator; the
    mutated object is what the function returns here. *)
Variable set_layer_name_width : FormattingOptions -> list (LayerInfo.t Energy) -> FormattingOptions.

(** What [__repr__] asks of the collaborator, of a device profile
    ([str(device_profile)]) and of an energy ([f"{total_energy}"]). *)
Variable get_total_width : FormattingOptions -> Z.
Variable header_row : FormattingOptions -> string.
Variable layers_to_str : FormattingOptions -> list (LayerInfo.t Energy) -> Z -> string.
Variable params_units : FormattingOptions -> Units.
Variable str_DeviceProfile : DeviceProfile -> string.
Variable format_Energy : Energy -> string.
Variable CONVERSION_FACTORS : Units -> option float.
Variable format_Units : Units -> string.

Record ModelStatistics : Type := mkModelStatistics {
  summary_list : list (LayerInfo.t Energy);
  input_size : InputSize;
  formatting : FormattingOptions;
  total_input : Z;
  total_mult_adds : Z;
  total_params : Z;
  trainable_params : Z;
  total_param_bytes : Z;
  total_output_bytes : Z;
  total_energy : Z;
  device_profiles : list DeviceProfile;
  total_energies : list Energy
}.

(** [self.field += v] for the five counters the loop updates. *)
Definition add_total_mult_adds (self : ModelStatistics) (v : Z) : ModelStatistics :=
  mkModelStatistics (summary_list self) (input_size self) (formatting self)
    (total_input self) (total_mult_adds self + v) (total_params self)
    (trainable_params self) (total_param_bytes self) (total_output_bytes self)
    (total_energy self) (device_profiles self) (total_energies self).

Definition add_total_params (self : ModelStatistics) (v : Z) : ModelStatistics :=
  mkModelStatistics (summary_list self) (input_size self) (formatting self)
    (total_input self) (total_mult_adds self) (total_params self + v)
    (trainable_params self) (total_param_bytes self) (total_output_bytes self)
    (total_energy self) (device_profiles self) (total_energies self).

Definition add_trainable_params (self : ModelStatistics) (v : Z) : ModelStatistics :=
  mkModelStatistics (summary_list self) (input_size self) (formatting self)
    (total_input self) (total_mult_adds self) (total_params self)
    (trainable_params self + v) (total_param_bytes self) (total_output_bytes self)
    (total_energy self) (device_profiles self) (total_energies self).

Definition add_total_param_bytes (self : ModelStatistics) (v : Z) : ModelStatistics :=
  mkModelStatistics (summary_list self) (input_size self) (formatting self)
    (total_input self) (total_mult_adds self) (total_params self)
    (trainable_params self) (total_param_bytes self + v) (total_output_bytes self)
    (total_energy self) (device_profiles self) (total_energies self).

Definition add_total_output_bytes (self : ModelStatistics) (v : Z) : ModelStatistics :=
  mkModelStatistics (summary_list self) (input_size self) (formatting self)
    (total_input self) (total_mult_adds self) (total_params self)
    (trainable_params self) (total_param_bytes self) (total_output_bytes self + v)
    (total_energy self) (device_profiles self) (total_energies self).

Definition set_formatting (self : ModelStatistics) (f : FormattingOptions) : ModelStatistics :=
  mkModelStatistics (summary_list self) (input_size self) f
    (total_input self) (total_mult_adds self) (total_params self)
    (trainable_params self) (total_param_bytes self) (total_output_bytes self)
    (total_energy self) (device_profiles self) (total_energies self).

(** The body of [for layer_info in summary_list]; [continue] ends the
    iteration with the object as it is at that point. *)
Definition loop_body (self : ModelStatistics) (layer_info : LayerInfo.t Energy) : ModelStatistics :=
  if LayerInfo.is_leaf_layer layer_info then
    let self := add_total_mult_adds self (LayerInfo.macs layer_info) in
    let self :=
      if LayerInfo.num_params layer_info >? 0
      then add_total_output_bytes self (LayerInfo.output_bytes layer_info * 2)
      else self in
    if LayerInfo.is_recursive layer_info then self
    else
      let self := add_total_params self (Z.max (LayerInfo.num_params layer_info) 0) in
      let self := add_total_param_bytes self (LayerInfo.param_bytes layer_info) in
      add_trainable_params self (Z.max (LayerInfo.trainable_params layer_info) 0)
  else
    if LayerInfo.is_recursive layer_info then self
    else
      let leftover_params := LayerInfo.leftover_params layer_info in
      let leftover_trainable_params := LayerInfo.leftover_trainable_params layer_info in
      let self := add_total_params self (Z.max leftover_params 0) in
      add_trainable_params self (Z.max leftover_trainable_params 0).

(** [ModelStatistics.__init__]: [summary_list[0]] raises [IndexError] on
    the empty list, before the loop and before the collaborator is
    touched. *)
Definition __init__ (summary_list : list (LayerInfo.t Energy)) (input_size : InputSize)
    (total_input_size : Z) (formatting : FormattingOptions)
    (device_profiles : list DeviceProfile) : result ModelStatistics :=
  match nth_error summary_list 0 with
  | None => Raise IndexError
  | Some first =>
      let self :=
        mkModelStatistics summary_list input_size formatting total_input_size
          0 0 0 0 0 0 device_profiles
          (LayerInfo.total_energy_contributions first) in
      let self := fold_left loop_body summary_list self in
      Ok (set_formatting self (set_layer_name_width formatting summary_list))
  end.

(** What one iteration of the loop adds to each counter. *)
Definition mult_adds_added (l : LayerInfo.t Energy) : Z :=
  if LayerInfo.is_leaf_layer l then LayerInfo.macs l else 0.

Definition params_added (l : LayerInfo.t Energy) : Z :=
  if LayerInfo.is_recursive l then 0
  else if LayerInfo.is_leaf_layer l then Z.max (LayerInfo.num_params l) 0
  else Z.max (LayerInfo.leftover_params l) 0.

Definition trainable_added (l : LayerInfo.t Energy) : Z :=
  if LayerInfo.is_recursive l then 0
  else if LayerInfo.is_leaf_layer l then Z.max (LayerInfo.trainable_params l) 0
  else Z.max (LayerInfo.leftover_trainable_params l) 0.

Definition param_bytes_added (l : LayerInfo.t Energy) : Z :=
  if LayerInfo.is_leaf_layer l && negb (LayerInfo.is_recursive l)
  then LayerInfo.param_bytes l else 0.

Definition output_bytes_added (l : LayerInfo.t Energy) : Z :=
  if LayerInfo.is_leaf_layer l && (LayerInfo.num_params l >? 0)
  then LayerInfo.output_bytes l * 2 else 0.

(** ** The report *)

Definition newline : string := String (ascii_of_N 10) "".

(** The integers that fit an index of a 64-bit interpreter. *)
Definition index_sized (n : Z) : bool := (- 2 ^ 63 <=? n) && (n <? 2 ^ 63).

(** [n] copies of [s] end to end; none when [n <= 0]. *)
Definition repeat_text (s : string) (n : Z) : string :=
  String.concat "" (repeat s (Z.to_nat n)).

(** [s * n] for a string [s] and an [int] [n]: the count is converted to
    an index first, which raises [OverflowError] when it does not fit.
    Memory is not bounded here: a count that fits gives its text. *)
Definition str_mul (s : string) (n : Z) : result string :=
  if index_sized n then Ok (repeat_text s n) else Raise OverflowError.

Definition energy_line (device_profile : DeviceProfile) (total_energy : Energy) : string :=
  ("Total energy for device [" ++ str_DeviceProfile device_profile ++ "] : " ++
   format_Energy total_energy ++ " J/inf" ++ newline)%string.

(** The list built by the loop over
    [zip(self.device_profiles, self.total_energies)]. *)
Definition total_energy_strings (self : ModelStatistics) : list string :=
  map (fun p => energy_line (fst p) (snd p))
    (combine (device_profiles self) (total_energies self)).

(** The text [summary_str] is given first (lines 77 to 81), built from the
    divider. *)
Definition summary_str (divider : string) (self : ModelStatistics) : string :=
  let all_layers :=
    layers_to_str (formatting self) (summary_list self) (total_params self) in
  (divider ++ newline ++
   header_row (formatting self) ++ divider ++ newline ++
   all_layers ++ divider ++ newline)%string.

(** [ModelStatistics.__repr__].  The divider comes first and raises for a
    width that does not fit an index; the three formatted parameter counts
    are computed next, and may raise, although the returned text does not
    use them. *)
Definition __repr__ (self : ModelStatistics) : result string :=
  divider <- str_mul "=" (get_total_width (formatting self)) ;;
  _ <- format_output_num CONVERSION_FACTORS format_Units
         (total_params self) (params_units (formatting self)) ;;
  _ <- format_output_num CONVERSION_FACTORS format_Units
         (trainable_params self) (params_units (formatting self)) ;;
  _ <- format_output_num CONVERSION_FACTORS format_Units
         (total_params self - trainable_params self) (params_units (formatting self)) ;;
  Ok (summary_str divider self ++ String.concat "" (total_energy_strings self))%string.


(** Whether the three parameter counts of [__repr__] can be formatted. *)
Definition params_formatted (self : ModelStatistics) : bool :=
  succeeds (format_output_num CONVERSION_FACTORS format_Units
              (total_params self) (params_units (formatting self))) &&
  succeeds (format_output_num CONVERSION_FACTORS format_Units
              (trainable_params self) (params_units (formatting self))) &&
  succeeds (format_output_num CONVERSION_FACTORS format_Units
              (total_params self - trainable_params self)
              (params_units (formatting self))).
End Statistics.

Arguments loop_body {InputSize DeviceProfile Energy FormattingOptions} self layer_info.
Arguments mult_adds_added {Energy} l.
Arguments params_added {Energy} l.
Arguments trainable_added {Energy} l.
Arguments param_bytes_added {Energy} l.
Arguments output_bytes_added {Energy} l.

(** ** Concrete collaborators for the examples *)

Module Example.
(** Modelled from the spec: the conversion factor of each explicit unit is
    the divisor the spec gives for it (1e12, 1e9, 1e6), a thousand for
    kilobytes and one for the unit-less sentinel; AUTO has no entry. *)
Definition CONVERSION_FACTORS (u : Units) : option float :=
  match u with
  | AUTO => None
  | KILOBYTES => Some (float_of_int 1000)
  | MEGABYTES => Some f1e6
  | GIGABYTES => Some f1e9
  | TERABYTES => Some f1e12
  | NONE => Some (float_of_int 1)
  end.

(** Modelled from the spec: the label of a unit in the formatted text is
    its name, as in ["(GIGABYTES)"]. *)
Definition format_Units (u : Units) : string :=
  match u with
  | AUTO => "AUTO"
  | KILOBYTES => "KILOBYTES"
  | MEGABYTES => "MEGABYTES"
  | GIGABYTES => "GIGABYTES"
  | TERABYTES => "TERABYTES"
  | NONE => "NONE"
  end.

(** A formatting collaborator reduced to the attributes used here. *)
Record Formatting : Type := mkFormatting {
  params_units : Units;
  total_width : Z;
  layer_name_width : Z
}.

Definition set_layer_name_width (f : Formatting) (layers : list (LayerInfo.t Z)) : Formatting :=
  mkFormatting (params_units f) (total_width f) (Z.of_nat (List.length layers)).

Definition header_row (f : Formatting) : string := ("Layer" ++ newline)%string.

Definition layers_to_str (f : Formatting) (layers : list (LayerInfo.t Z)) (total : Z) : string :=
  ""%string.

Definition formatting0 : Formatting := mkFormatting AUTO 3 0.

(** Device profiles given by their string form; energies given as
    integers, printed in decimal. *)
Definition str_DeviceProfile (d : string) : string := d.

Definition format_Energy (e : Z) : string :=
  ((if Z.ltb e 0 then "-" else "") ++
   string_of_list_ascii (decimal_digits (Z.abs e)))%string.

Definition init (summary_list : list (LayerInfo.t Z)) (device_profiles : list string)
  : result (ModelStatistics unit string Z Formatting) :=
  __init__ set_layer_name_width summary_list tt 0 formatting0 device_profiles.


(** A leaf record with the given counters and energies. *)
Definition leaf (recursive : bool) (num_params trainable macs output_bytes param_bytes : Z)
    (energies : list Z) : LayerInfo.t Z :=
  LayerInfo.mk true recursive num_params trainable macs output_bytes param_bytes 0 0 energies.

(** The object as the loop of [__init__] finds it, all counters at zero. *)
Definition self0 : ModelStatistics unit string Z Formatting :=
  mkModelStatistics [] tt formatting0 0 0 0 0 0 0 0 [] [].

(** A container record with the given leftovers. *)
Definition container (recursive : bool) (num_params leftover leftover_trainable : Z)
  : LayerInfo.t Z :=
  LayerInfo.mk false recursive num_params num_params 0 0 0 leftover leftover_trainable [].
End Example.

(** ** Counting lines *)

(** The number of occurrences of a character in a text. *)
Fixpoint count_char (c : ascii) (s : string) : nat :=
  match s with
  | EmptyString => 0
  | String a rest => (if Ascii.eqb a c then 1 else 0) + count_char c rest
  end.

(** The number of line ends of a text. *)
Definition count_newlines (s : string) : nat := count_char (ascii_of_N 10) s.

(** * Properties *)

Unset Implicit Arguments.

(** ** The accumulation loop *)

Section LoopFacts.
Variables InputSize DeviceProfile Energy FormattingOptions : Type.

Lemma loop_body_total_mult_adds
    (self : ModelStatistics InputSize DeviceProfile Energy FormattingOptions)
    (l : LayerInfo.t Energy) :
  total_mult_adds (loop_body self l) = total_mult_adds self + mult_adds_added l.
Proof.
  unfold loop_body, mult_adds_added.
  destruct (LayerInfo.is_leaf_layer l), (LayerInfo.is_recursive l),
    (LayerInfo.num_params l >? 0); simpl; lia.
Qed.

Lemma loop_body_total_params
    (self : ModelStatistics InputSize DeviceProfile Energy FormattingOptions)
    (l : LayerInfo.t Energy) :
  total_params (loop_body self l) = total_params self + params_added l.
Proof.
  unfold loop_body, params_added.
  destruct (LayerInfo.is_leaf_layer l), (LayerInfo.is_recursive l),
    (LayerInfo.num_params l >? 0); simpl; lia.
Qed.

Lemma loop_body_trainable_params
    (self : ModelStatistics InputSize DeviceProfile Energy FormattingOptions)
    (l : LayerInfo.t Energy) :
  trainable_params (loop_body self l) = trainable_params self + trainable_added l.
Proof.
  unfold loop_body, trainable_added.
  destruct (LayerInfo.is_leaf_layer l), (LayerInfo.is_recursive l),
    (LayerInfo.num_params l >? 0); simpl; lia.
Qed.

Lemma loop_body_total_param_bytes
    (self : ModelStatistics InputSize DeviceProfile Energy FormattingOptions)
    (l : LayerInfo.t Energy) :
  total_param_bytes (loop_body self l) = total_param_bytes self + param_bytes_added l.
Proof.
  unfold loop_body, param_bytes_added.
  destruct (LayerInfo.is_leaf_layer l), (LayerInfo.is_recursive l),
    (LayerInfo.num_params l >? 0); simpl; lia.
Qed.

Lemma loop_body_total_output_bytes
    (self : ModelStatistics InputSize DeviceProfile Energy FormattingOptions)
    (l : LayerInfo.t Energy) :
  total_output_bytes (loop_body self l) = total_output_bytes self + output_bytes_added l.
Proof.
  unfold loop_body, output_bytes_added.
  destruct (LayerInfo.is_leaf_layer l), (LayerInfo.is_recursive l),
    (LayerInfo.num_params l >? 0); simpl; lia.
Qed.

(** The loop leaves the other attributes alone. *)
Lemma loop_body_frame
    (self : ModelStatistics InputSize DeviceProfile Energy FormattingOptions)
    (l : LayerInfo.t Energy) :
  device_profiles (loop_body self l) = device_profiles self /\
  total_energies (loop_body self l) = total_energies self /\
  summary_list (loop_body self l) = summary_list self /\
  formatting (loop_body self l) = formatting self.
Proof.
  unfold loop_body.
  destruct (LayerInfo.is_leaf_layer l), (LayerInfo.is_recursive l),
    (LayerInfo.num_params l >? 0); simpl; auto.
Qed.

(** A counter that grows by [added l] at each iteration ends at its
    initial value plus the sum of the increments. *)
Lemma fold_counter
    (counter : ModelStatistics InputSize DeviceProfile Energy FormattingOptions -> Z)
    (added : LayerInfo.t Energy -> Z) :
  (forall self l, counter (loop_body self l) = counter self + added l) ->
  forall layers self,
    counter (fold_left loop_body layers self) = counter self + Zsum (map added layers).
Proof.
  intros Hstep layers.
  induction layers as [|l layers IH]; intros self; simpl.
  - lia.
  - rewrite IH, Hstep. lia.
Qed.

Lemma fold_frame (layers : list (LayerInfo.t Energy)) :
  forall self : ModelStatistics InputSize DeviceProfile Energy FormattingOptions,
    device_profiles (fold_left loop_body layers self) = device_profiles self /\
    total_energies (fold_left loop_body layers self) = total_energies self.
Proof.
  induction layers as [|l layers IH]; intros self; simpl.
  - auto.
  - destruct (IH (loop_body self l)) as [H1 H2].
    destruct (loop_body_frame self l) as (F1 & F2 & _).
    rewrite H1, H2. auto.
Qed.

Lemma Zsum_app (a b : list Z) : Zsum (a ++ b) = Zsum a + Zsum b.
Proof.
  induction a as [|x a IH]; simpl; lia.
Qed.

Lemma Zsum_insert {A : Type} (f : A -> Z) (pre post : list A) (x : A) :
  Zsum (map f (pre ++ x :: post)) = Zsum (map f (pre ++ post)) + f x.
Proof.
  rewrite !map_app, !Zsum_app. cbn [map]. unfold Zsum. cbn [fold_right]. lia.
Qed.

(** A sum of increments that vanish outside [p] is the sum over [p]. *)
Lemma Zsum_filtered {A : Type} (f g : A -> Z) (p : A -> bool) (l : list A) :
  (forall x, g x = if p x then f x else 0) ->
  Zsum (map g l) = sum_over f p l.
Proof.
  intros Hg. unfold sum_over.
  induction l as [|x l IH]; simpl.
  - reflexivity.
  - rewrite Hg. destruct (p x); simpl; lia.
Qed.

Variable set_layer_name_width :
  FormattingOptions -> list (LayerInfo.t Energy) -> FormattingOptions.

(** On a non-empty sequence construction returns, and every counter is the
    sum of what the iterations added. *)
Lemma init_nonempty (l : LayerInfo.t Energy) (rest : list (LayerInfo.t Energy))
    (input_size : InputSize) (total_input_size : Z) (fmt : FormattingOptions)
    (dps : list DeviceProfile) :
  exists self : ModelStatistics InputSize DeviceProfile Energy FormattingOptions,
    __init__ set_layer_name_width (l :: rest) input_size total_input_size fmt dps
    = Ok self /\
    total_mult_adds self = Zsum (map mult_adds_added (l :: rest)) /\
    total_params self = Zsum (map params_added (l :: rest)) /\
    trainable_params self = Zsum (map trainable_added (l :: rest)) /\
    total_param_bytes self = Zsum (map param_bytes_added (l :: rest)) /\
    total_output_bytes self = Zsum (map output_bytes_added (l :: rest)) /\
    device_profiles self = dps /\
    total_energies self = LayerInfo.total_energy_contributions l.
Proof.
  unfold __init__. cbn [nth_error].
  eexists. split; [reflexivity|].
  cbn [set_formatting total_mult_adds total_params trainable_params
       total_param_bytes total_output_bytes device_profiles total_energies].
  rewrite (fold_counter (@total_mult_adds _ _ _ _) mult_adds_added loop_body_total_mult_adds).
  rewrite (fold_counter (@total_params _ _ _ _) params_added loop_body_total_params).
  rewrite (fold_counter (@trainable_params _ _ _ _) trainable_added loop_body_trainable_params).
  rewrite (fold_counter (@total_param_bytes _ _ _ _) param_bytes_added loop_body_total_param_bytes).
  rewrite (fold_counter (@total_output_bytes _ _ _ _) output_bytes_added loop_body_total_output_bytes).
  match goal with |- context [fold_left loop_body ?ls ?s] =>
    destruct (fold_frame ls s) as [-> ->] end.
  cbn. repeat split; lia.
Qed.

(** The same for any sequence: construction fails only on the empty one. *)
Lemma init_totals (layers : list (LayerInfo.t Energy))
    (input_size : InputSize) (total_input_size : Z) (fmt : FormattingOptions)
    (dps : list DeviceProfile) :
  match __init__ set_layer_name_width layers input_size total_input_size fmt dps with
  | Ok self =>
      total_mult_adds self = Zsum (map mult_adds_added layers) /\
      total_params self = Zsum (map params_added layers) /\
      trainable_params self = Zsum (map trainable_added layers) /\
      total_param_bytes self = Zsum (map param_bytes_added layers)
  | Raise _ => layers = []
  end.
Proof.
  destruct layers as [|l rest]; [reflexivity|].
  destruct (init_nonempty l rest input_size total_input_size fmt dps)
    as (self & -> & Hm & Hp & Ht & Hb & _).
  auto.
Qed.

Lemma init_empty (input_size : InputSize) (total_input_size : Z) (fmt : FormattingOptions)
    (dps : list DeviceProfile) :
  __init__ set_layer_name_width [] input_size total_input_size fmt dps
  = (Raise IndexError : result (ModelStatistics InputSize DeviceProfile Energy FormattingOptions)).
Proof. reflexivity. Qed.
End LoopFacts.

(** ** What construction computes *)

Section Construction.
Variables InputSize DeviceProfile Energy FormattingOptions : Type.
Variable set_layer_name_width :
  FormattingOptions -> list (LayerInfo.t Energy) -> FormattingOptions.

(** C1.  When every record of the sequence is a non-recursive leaf, the
    constructed object has [total_params] equal to the sum of
    [max(num_params, 0)] and [trainable_params] equal to the sum of
    [max(trainable_params, 0)] over the records; construction fails only on
    the empty sequence. *)
Theorem leaf_only_totals (layers : list (LayerInfo.t Energy)) (input_size : InputSize)
    (total_input_size : Z) (fmt : FormattingOptions) (dps : list DeviceProfile) :
  Forall (fun l => LayerInfo.is_leaf_layer l = true /\ LayerInfo.is_recursive l = false)
    layers ->
  match __init__ set_layer_name_width layers input_size total_input_size fmt dps with
  | Ok self =>
      total_params self = Zsum (map (fun l => Z.max (LayerInfo.num_params l) 0) layers) /\
      trainable_params self
      = Zsum (map (fun l => Z.max (LayerInfo.trainable_params l) 0) layers)
  | Raise _ => layers = []
  end.
Proof.
  intros Hall.
  destruct layers as [|l rest]; [reflexivity|].
  destruct (init_nonempty _ _ _ _ set_layer_name_width l rest input_size total_input_size fmt dps)
    as (self & -> & _ & Hp & Ht & _).
  rewrite Hp, Ht. clear Hp Ht.
  assert (Hsame : forall ls : list (LayerInfo.t Energy),
    Forall (fun l => LayerInfo.is_leaf_layer l = true /\ LayerInfo.is_recursive l = false) ls ->
    map params_added ls = map (fun l => Z.max (LayerInfo.num_params l) 0) ls /\
    map trainable_added ls = map (fun l => Z.max (LayerInfo.trainable_params l) 0) ls).
  { induction 1 as [|x ls [Hleaf Hrec] _ [IH1 IH2]]; simpl; [auto|].
    unfold params_added at 1, trainable_added at 1.
    rewrite Hleaf, Hrec, IH1, IH2. auto. }
  destruct (Hsame _ Hall) as [-> ->]. auto.
Qed.

(** C2.  At a non-leaf record the loop adds the leftovers to
    [total_params] and [trainable_params] only when the record is not
    recursive, each clamped at zero, so the running totals never decrease:
    [before] is the object after the records [pre], [after] the object
    after [pre] and then [l].  Accordingly the object built from a sequence
    containing [l] has the totals of the one built without [l], plus the
    clamped leftovers when [l] is not recursive. *)
Theorem nonleaf_leftover_clamped (pre post : list (LayerInfo.t Energy))
    (l : LayerInfo.t Energy)
    (self0 : ModelStatistics InputSize DeviceProfile Energy FormattingOptions)
    (input_size : InputSize) (total_input_size : Z) (fmt : FormattingOptions)
    (dps : list DeviceProfile) :
  LayerInfo.is_leaf_layer l = false ->
  (let before := fold_left loop_body pre self0 in
   let after := fold_left loop_body (pre ++ [l]) self0 in
   (LayerInfo.is_recursive l = true -> after = before) /\
   (LayerInfo.is_recursive l = false ->
      total_params after = total_params before + Z.max (LayerInfo.leftover_params l) 0 /\
      trainable_params after
      = trainable_params before + Z.max (LayerInfo.leftover_trainable_params l) 0) /\
   total_params before <= total_params after /\
   trainable_params before <= trainable_params after) /\
  exists self,
    __init__ set_layer_name_width (pre ++ l :: post) input_size total_input_size fmt dps
    = Ok self /\
    match __init__ set_layer_name_width (pre ++ post) input_size total_input_size fmt dps
    with
    | Ok without =>
        total_params self
        = total_params without +
          (if LayerInfo.is_recursive l then 0 else Z.max (LayerInfo.leftover_params l) 0) /\
        trainable_params self
        = trainable_params without +
          (if LayerInfo.is_recursive l then 0
           else Z.max (LayerInfo.leftover_trainable_params l) 0) /\
        total_params without <= total_params self /\
        trainable_params without <= trainable_params self
    | Raise _ =>
        total_params self
        = (if LayerInfo.is_recursive l then 0 else Z.max (LayerInfo.leftover_params l) 0) /\
        trainable_params self
        = (if LayerInfo.is_recursive l then 0
           else Z.max (LayerInfo.leftover_trainable_params l) 0)
    end.
Proof.
  intros Hleaf. split.
  - intros before after.
    assert (Hafter : after = loop_body before l).
    { unfold after, before. rewrite fold_left_app. reflexivity. }
    rewrite Hafter. unfold loop_body. rewrite Hleaf.
    destruct (LayerInfo.is_recursive l); simpl.
    + repeat split; try discriminate; lia.
    + repeat split; try discriminate; lia.
  - pose proof (init_totals _ _ _ _ set_layer_name_width (pre ++ l :: post)
                  input_size total_input_size fmt dps) as Hwith.
    pose proof (init_totals _ _ _ _ set_layer_name_width (pre ++ post)
                  input_size total_input_size fmt dps) as Hwithout.
    destruct (__init__ set_layer_name_width (pre ++ l :: post) _ _ _ _) as [self|e].
    2: { destruct pre; discriminate Hwith. }
    exists self. split; [reflexivity|].
    destruct Hwith as (_ & Hp & Ht & _).
    rewrite Hp, Ht, !Zsum_insert.
    assert (Hpl : params_added l
                  = if LayerInfo.is_recursive l then 0
                    else Z.max (LayerInfo.leftover_params l) 0).
    { unfold params_added. rewrite Hleaf. reflexivity. }
    assert (Htl : trainable_added l
                  = if LayerInfo.is_recursive l then 0
                    else Z.max (LayerInfo.leftover_trainable_params l) 0).
    { unfold trainable_added. rewrite Hleaf. reflexivity. }
    rewrite Hpl, Htl.
    destruct (__init__ set_layer_name_width (pre ++ post) _ _ _ _) as [without|e].
    + destruct Hwithout as (_ & -> & -> & _).
      destruct (LayerInfo.is_recursive l); repeat split; lia.
    + rewrite Hwithout. cbn [map Zsum fold_right].
      destruct (LayerInfo.is_recursive l); repeat split; lia.
Qed.

(** C3.  At a recursive leaf record the loop adds the record's [macs] to
    [total_mult_adds] and leaves [total_params], [trainable_params] and
    [total_param_bytes] as they were.  Accordingly the object built from a
    sequence containing [l] has the [total_mult_adds] of the one built
    without [l] plus [macs], and the same three parameter totals. *)
Theorem recursive_leaf_counts_macs_only (pre post : list (LayerInfo.t Energy))
    (l : LayerInfo.t Energy)
    (self0 : ModelStatistics InputSize DeviceProfile Energy FormattingOptions)
    (input_size : InputSize) (total_input_size : Z) (fmt : FormattingOptions)
    (dps : list DeviceProfile) :
  LayerInfo.is_leaf_layer l = true ->
  LayerInfo.is_recursive l = true ->
  (let before := fold_left loop_body pre self0 in
   let after := fold_left loop_body (pre ++ [l]) self0 in
   total_mult_adds after = total_mult_adds before + LayerInfo.macs l /\
   total_params after = total_params before /\
   trainable_params after = trainable_params before /\
   total_param_bytes after = total_param_bytes before) /\
  exists self,
    __init__ set_layer_name_width (pre ++ l :: post) input_size total_input_size fmt dps
    = Ok self /\
    match __init__ set_layer_name_width (pre ++ post) input_size total_input_size fmt dps
    with
    | Ok without =>
        total_mult_adds self = total_mult_adds without + LayerInfo.macs l /\
        total_params self = total_params without /\
        trainable_params self = trainable_params without /\
        total_param_bytes self = total_param_bytes without
    | Raise _ =>
        total_mult_adds self = LayerInfo.macs l /\
        total_params self = 0 /\
        trainable_params self = 0 /\
        total_param_bytes self = 0
    end.
Proof.
  intros Hleaf Hrec. split.
  - intros before after.
    assert (Hafter : after = loop_body before l).
    { unfold after, before. rewrite fold_left_app. reflexivity. }
    rewrite Hafter. unfold loop_body. rewrite Hleaf, Hrec.
    destruct (LayerInfo.num_params l >? 0); simpl; repeat split; lia.
  - pose proof (init_totals _ _ _ _ set_layer_name_width (pre ++ l :: post)
                  input_size total_input_size fmt dps) as Hwith.
    pose proof (init_totals _ _ _ _ set_layer_name_width (pre ++ post)
                  input_size total_input_size fmt dps) as Hwithout.
    destruct (__init__ set_layer_name_width (pre ++ l :: post) _ _ _ _) as [self|e].
    2: { destruct pre; discriminate Hwith. }
    exists self. split; [reflexivity|].
    destruct Hwith as (Hm & Hp & Ht & Hb).
    rewrite Hm, Hp, Ht, Hb, !Zsum_insert.
    assert (Hml : mult_adds_added l = LayerInfo.macs l).
    { unfold mult_adds_added. rewrite Hleaf. reflexivity. }
    assert (Hpl : params_added l = 0).
    { unfold params_added. rewrite Hrec. reflexivity. }
    assert (Htl : trainable_added l = 0).
    { unfold trainable_added. rewrite Hrec. reflexivity. }
    assert (Hbl : param_bytes_added l = 0).
    { unfold param_bytes_added. rewrite Hleaf, Hrec. reflexivity. }
    rewrite Hml, Hpl, Htl, Hbl.
    destruct (__init__ set_layer_name_width (pre ++ post) _ _ _ _) as [without|e].
    + destruct Hwithout as (-> & -> & -> & ->). repeat split; lia.
    + rewrite Hwithout. cbn [map Zsum fold_right]. repeat split; lia.
Qed.

(** C4 (amended).  [total_param_bytes] is the sum of [param_bytes] over the
    non-recursive leaf records, whatever their [num_params]; it is
    non-negative when the [param_bytes] of those records are. *)
Theorem total_param_bytes_sum (layers : list (LayerInfo.t Energy)) (input_size : InputSize)
    (total_input_size : Z) (fmt : FormattingOptions) (dps : list DeviceProfile) :
  match __init__ set_layer_name_width layers input_size total_input_size fmt dps with
  | Ok self =>
      total_param_bytes self
      = sum_over (@LayerInfo.param_bytes Energy)
          (fun l => LayerInfo.is_leaf_layer l && negb (LayerInfo.is_recursive l)) layers /\
      (Forall (fun l => LayerInfo.is_leaf_layer l = true ->
                        LayerInfo.is_recursive l = false ->
                        0 <= LayerInfo.param_bytes l) layers ->
       0 <= total_param_bytes self)
  | Raise _ => layers = []
  end.
Proof.
  destruct layers as [|l rest]; [reflexivity|].
  destruct (init_nonempty _ _ _ _ set_layer_name_width l rest input_size total_input_size fmt dps)
    as (self & -> & _ & _ & _ & Hb & _).
  rewrite Hb. split.
  - apply Zsum_filtered. intros x. reflexivity.
  - clear Hb. generalize (l :: rest). intros ls Hall.
    induction Hall as [|x ls Hx _ IH]; simpl; [lia|].
    unfold param_bytes_added at 1.
    destruct (LayerInfo.is_leaf_layer x) eqn:Hleaf,
             (LayerInfo.is_recursive x) eqn:Hrec; simpl;
      try specialize (Hx eq_refl eq_refl); lia.
Qed.

(** C5.  [total_output_bytes] is the sum of twice [output_bytes] over the
    leaf records with [num_params > 0], recursive ones included. *)
Theorem total_output_bytes_sum (layers : list (LayerInfo.t Energy)) (input_size : InputSize)
    (total_input_size : Z) (fmt : FormattingOptions) (dps : list DeviceProfile) :
  match __init__ set_layer_name_width layers input_size total_input_size fmt dps with
  | Ok self =>
      total_output_bytes self
      = sum_over (fun l => 2 * LayerInfo.output_bytes l)
          (fun l => LayerInfo.is_leaf_layer l && (LayerInfo.num_params l >? 0)) layers
  | Raise _ => layers = []
  end.
Proof.
  destruct layers as [|l rest]; [reflexivity|].
  destruct (init_nonempty _ _ _ _ set_layer_name_width l rest input_size total_input_size fmt dps)
    as (self & -> & _ & _ & _ & _ & Ho & _).
  rewrite Ho. apply Zsum_filtered.
  intros x. unfold output_bytes_added.
  destruct (LayerInfo.is_leaf_layer x && (LayerInfo.num_params x >? 0)); lia.
Qed.

(** C6 (amended).  Construction raises [IndexError], and returns no object,
    on the empty sequence; on every other sequence it returns an object
    holding the device profiles as given and the energy contributions of the
    first record, whatever their two lengths. *)
Theorem init_fails_only_on_empty (input_size : InputSize) (total_input_size : Z)
    (fmt : FormattingOptions) (dps : list DeviceProfile) :
  __init__ set_layer_name_width [] input_size total_input_size fmt dps
  = (Raise IndexError : result (ModelStatistics InputSize DeviceProfile Energy FormattingOptions)) /\
  forall (l : LayerInfo.t Energy) (rest : list (LayerInfo.t Energy)),
  exists self : ModelStatistics InputSize DeviceProfile Energy FormattingOptions,
    __init__ set_layer_name_width (l :: rest) input_size total_input_size fmt dps
    = Ok self /\
    device_profiles self = dps /\
    total_energies self = LayerInfo.total_energy_contributions l.
Proof.
  split; [reflexivity|].
  intros l rest.
  destruct (init_nonempty _ _ _ _ set_layer_name_width l rest input_size total_input_size fmt dps)
    as (self & Hinit & _ & _ & _ & _ & _ & Hd & He).
  exists self. auto.
Qed.
End Construction.

(** ** Conversion of integers to floats *)

Lemma iter_pos_iter {A : Type} (f : A -> A) (p : positive) :
  forall x, iter_pos f p x = Pos.iter f x p.
Proof.
  induction p as [p IH|p IH|]; intros x; simpl.
  - rewrite !IH. rewrite <- !Pos.iter_swap. reflexivity.
  - rewrite !IH. reflexivity.
  - reflexivity.
Qed.

Lemma digits2_bounds (m : positive) :
  2 ^ (Zpos (digits2_pos m) - 1) <= Zpos m < 2 ^ Zpos (digits2_pos m).
Proof.
  induction m as [m IH|m IH|].
  - cbn [digits2_pos]. rewrite Pos2Z.inj_succ.
    replace (Z.succ (Zpos (digits2_pos m)) - 1) with (Z.succ (Zpos (digits2_pos m) - 1)) by lia.
    rewrite !Z.pow_succ_r by lia. lia.
  - cbn [digits2_pos]. rewrite Pos2Z.inj_succ.
    replace (Z.succ (Zpos (digits2_pos m)) - 1) with (Z.succ (Zpos (digits2_pos m) - 1)) by lia.
    rewrite !Z.pow_succ_r by lia. lia.
  - cbn. lia.
Qed.

(** The number of binary digits is determined by the enclosing powers of two. *)
Lemma digits2_unique (m : positive) (d : Z) :
  2 ^ (d - 1) <= Zpos m < 2 ^ d -> 0 < d -> Zpos (digits2_pos m) = d.
Proof.
  intros [Hlo Hhi] Hd.
  destruct (digits2_bounds m) as [Blo Bhi].
  assert (H1 : d - 1 < Zpos (digits2_pos m)).
  { apply (Z.pow_lt_mono_r_iff 2); try lia. }
  assert (H2 : Zpos (digits2_pos m) - 1 < d).
  { apply (Z.pow_lt_mono_r_iff 2); try lia. }
  lia.
Qed.

Lemma digits2_iter_xO (m k : positive) :
  digits2_pos (Pos.iter xO m k) = (digits2_pos m + k)%positive.
Proof.
  apply (Pos.iter_ind _ xO m (fun p a => digits2_pos a = (digits2_pos m + p)%positive)).
  - cbn. lia.
  - intros p a H. cbn. rewrite H. lia.
Qed.

Lemma shr_1_nonneg (m : Z) (r s : bool) :
  0 <= m ->
  shr_1 (Build_shr_record m r s) = Build_shr_record (m / 2) (Z.odd m) (r || s).
Proof.
  intros Hm. rewrite <- Z.div2_div.
  destruct m as [|[p|p|]|p]; try reflexivity; lia.
Qed.

Lemma shr_iter (m : Z) (k : positive) :
  0 <= m ->
  let mrs := Pos.iter shr_1 (Build_shr_record m false false) k in
  shr_m mrs = m / 2 ^ Zpos k /\ shr_r mrs = Z.odd (m / 2 ^ (Zpos k - 1)).
Proof.
  intros Hm.
  apply (Pos.iter_ind _ shr_1 (Build_shr_record m false false)
    (fun p a => shr_m a = m / 2 ^ Zpos p /\ shr_r a = Z.odd (m / 2 ^ (Zpos p - 1)))).
  - rewrite shr_1_nonneg by lia. cbn [shr_m shr_r].
    change (2 ^ (1 - 1)) with 1. rewrite Z.div_1_r. change (2 ^ 1) with 2. auto.
  - intros p [m' r' s'] [H1 H2]. cbn [shr_m shr_r] in *.
    assert (0 <= m') by (subst m'; apply Z.div_pos; lia).
    rewrite shr_1_nonneg by lia. cbn [shr_m shr_r].
    rewrite Pos2Z.inj_succ.
    replace (Z.succ (Zpos p) - 1) with (Zpos p) by lia.
    rewrite Z.pow_succ_r by lia. subst m'.
    rewrite Z.div_div by lia. rewrite (Z.mul_comm 2). auto.
Qed.

Lemma fexp_small (e : Z) : -1021 <= e -> fexp 53 1024 e = e - 53.
Proof. intros H. unfold fexp, emin. lia. Qed.

(** A mantissa of exactly 53 digits is kept as it is. *)
Lemma binary_round_aux_exact (s : bool) (mz : positive) (ez : Z) :
  Zpos (digits2_pos mz) = 53 -> -1074 <= ez ->
  binary_round_aux 53 1024 s (Zpos mz) ez loc_Exact
  = if ez <=? 971 then S754_finite s mz ez else S754_infinity s.
Proof.
  intros Hd He.
  unfold binary_round_aux, shr_fexp. cbn [Zdigits2 shr_record_of_loc].
  rewrite Hd. rewrite fexp_small by lia.
  replace (53 + ez - 53 - ez) with 0 by lia.
  cbn [shr loc_of_shr_record shr_m shr_r shr_s round_nearest_even Zdigits2 shr_record_of_loc].
  rewrite Hd. rewrite fexp_small by lia.
  replace (53 + ez - 53 - ez) with 0 by lia.
  cbn [shr shr_m]. reflexivity.
Qed.

Lemma round_nearest_even_bounds (q : Z) (mrs : shr_record) :
  let m := round_nearest_even q (loc_of_shr_record mrs) in
  q <= m <= q + 1 /\ (m = q + 1 -> shr_r mrs = true).
Proof.
  destruct mrs as [m0 [|] [|]]; cbn; try destruct (Z.even q); split; try lia; auto; intros; lia.
Qed.

Lemma binary_round_aux_shift (s : bool) (m k : positive) :
  Zpos (digits2_pos m) = 53 + Zpos k ->
  Zpos k <= 971 ->
  (Zpos k = 971 -> Zpos m < 2 ^ 1024 - 2 ^ 970) ->
  exists m' e', binary_round_aux 53 1024 s (Zpos m) 0 loc_Exact = S754_finite s m' e'.
Proof.
  intros Hd Hk Hlast.
  destruct (digits2_bounds m) as [Blo Bhi]. rewrite Hd in Blo, Bhi.
  unfold binary_round_aux, shr_fexp at 1. cbn [Zdigits2 shr_record_of_loc].
  rewrite Hd. rewrite fexp_small by lia.
  replace (53 + Zpos k + 0 - 53 - 0) with (Zpos k) by lia.
  cbn [shr]. rewrite iter_pos_iter.
  destruct (shr_iter (Zpos m) k) as [Hq Hr]; [lia|].
  set (mrs := Pos.iter shr_1 {| shr_m := Zpos m; shr_r := false; shr_s := false |} k) in *.
  rewrite Hq.
  set (q := Zpos m / 2 ^ Zpos k) in *.
  assert (Hqlo : 2 ^ 52 <= q).
  { unfold q. apply Z.div_le_lower_bound; [lia|].
    rewrite <- Z.pow_add_r by lia. replace (Zpos k + 52) with (53 + Zpos k - 1) by lia. exact Blo. }
  assert (Hqhi : q < 2 ^ 53).
  { unfold q. apply Z.div_lt_upper_bound; [lia|].
    rewrite <- Z.pow_add_r by lia. replace (Zpos k + 53) with (53 + Zpos k) by lia. exact Bhi. }
  destruct (round_nearest_even_bounds q mrs) as [Hm Hup].
  set (m2 := round_nearest_even q (loc_of_shr_record mrs)) in *.
  assert (Hpos : 0 < m2) by lia.
  destruct m2 as [|p2|p2] eqn:Em2; try lia.
  destruct (Z_lt_le_dec (Zpos p2) (2 ^ 53)) as [Hlt|Hge].
  - (* no carry *)
    assert (Hd2 : Zpos (digits2_pos p2) = 53).
    { apply digits2_unique; [|lia]. change (53 - 1) with 52. lia. }
    unfold shr_fexp. cbn [Zdigits2 shr_record_of_loc]. rewrite Hd2.
    rewrite fexp_small by lia.
    replace (53 + (0 + Zpos k) - 53 - (0 + Zpos k)) with 0 by lia.
    cbn [shr shr_m].
    replace (0 + Zpos k <=? 1024 - 53) with true by (symmetry; apply Z.leb_le; lia).
    eauto.
  - (* the mantissa rounds up to 2^53 *)
    assert (Hp2 : Zpos p2 = 2 ^ 53) by lia.
    assert (Hd2 : Zpos (digits2_pos p2) = 54).
    { apply digits2_unique; [|lia]. change (54 - 1) with 53. rewrite Hp2.
      split; [lia|]. apply Z.pow_lt_mono_r; lia. }
    assert (Hk970 : Zpos k <= 970).
    { destruct (Z.eq_dec (Zpos k) 971) as [E|]; [|lia]. exfalso.
      specialize (Hlast E).
      assert (Hr' : shr_r mrs = true) by (apply Hup; lia).
      rewrite Hr in Hr'. rewrite E in Hr'. change (971 - 1) with 970 in Hr'.
      assert (Hq' : q = 2 ^ 53 - 1) by lia.
      unfold q in Hq'. rewrite E in Hq'.
      pose proof (Zdiv2_odd_eqn (Zpos m / 2 ^ 970)) as Hodd. rewrite Hr' in Hodd.
      rewrite Z.div2_div in Hodd. rewrite Z.div_div in Hodd by lia.
      change (2 ^ 970 * 2) with (2 ^ 971) in Hodd. rewrite Hq' in Hodd.
      assert (Hmge : 2 ^ 970 * (Zpos m / 2 ^ 970) <= Zpos m).
      { apply Z.mul_div_le. lia. }
      rewrite Hodd in Hmge.
      change (2 ^ 1024) with (2 ^ 970 * 2 ^ 54) in Hlast.
      change (2 ^ 53) with (2 ^ 53)%Z in Hmge.
      assert (2 * (2 ^ 53 - 1) + 1 = 2 ^ 54 - 1) by (change (2 ^ 54) with (2 * 2 ^ 53); lia).
      nia. }
    unfold shr_fexp. cbn [Zdigits2 shr_record_of_loc]. rewrite Hd2.
    rewrite fexp_small by lia.
    replace (54 + (0 + Zpos k) - 53 - (0 + Zpos k)) with 1 by lia.
    cbn [shr iter_pos]. rewrite shr_1_nonneg by lia. cbn [shr_m].
    rewrite Hp2.
    change (2 ^ 53 / 2) with (Zpos (2 ^ 52)).
    replace (0 + Zpos k + 1 <=? 1024 - 53) with true by (symmetry; apply Z.leb_le; lia).
    eauto.
Qed.

Lemma binary_round_int_finite (s : bool) (m : positive) :
  Zpos m < 2 ^ 1024 - 2 ^ 970 ->
  exists m' e', binary_round 53 1024 s m 0 = S754_finite s m' e'.
Proof.
  intros Hm.
  destruct (digits2_bounds m) as [Blo Bhi].
  assert (Hd : Zpos (digits2_pos m) <= 1024).
  { assert (Zpos (digits2_pos m) - 1 < 1024); [|lia].
    apply (Z.pow_lt_mono_r_iff 2); lia. }
  unfold binary_round. rewrite fexp_small by lia. unfold shl_align.
  destruct (Zpos (digits2_pos m) + 0 - 53 - 0) as [|k|k] eqn:E.
  - rewrite binary_round_aux_exact by lia. cbn. eauto.
  - apply (binary_round_aux_shift s m k); lia.
  - rewrite binary_round_aux_exact.
    + replace (Zpos (digits2_pos m) + 0 - 53 <=? 971) with true
        by (symmetry; apply Z.leb_le; lia).
      eauto.
    + rewrite digits2_iter_xO. lia.
    + lia.
Qed.

Lemma round_nearest_even_up (q : Z) (mrs : shr_record) :
  shr_r mrs = true -> Z.odd q = true ->
  round_nearest_even q (loc_of_shr_record mrs) = q + 1.
Proof.
  intros Hr Ho. rewrite <- Z.negb_even in Ho.
  destruct mrs as [m0 r [|]]; cbn in Hr; subst r; cbn; [reflexivity|].
  destruct (Z.even q); [discriminate|reflexivity].
Qed.

Lemma binary_round_aux_overflow (s : bool) (m k : positive) :
  Zpos (digits2_pos m) = 53 + Zpos k ->
  972 <= Zpos k \/ (Zpos k = 971 /\ 2 ^ 1024 - 2 ^ 970 <= Zpos m) ->
  binary_round_aux 53 1024 s (Zpos m) 0 loc_Exact = S754_infinity s.
Proof.
  intros Hd Hbig.
  destruct (digits2_bounds m) as [Blo Bhi]. rewrite Hd in Blo, Bhi.
  unfold binary_round_aux, shr_fexp at 1. cbn [Zdigits2 shr_record_of_loc].
  rewrite Hd. rewrite fexp_small by lia.
  replace (53 + Zpos k + 0 - 53 - 0) with (Zpos k) by lia.
  cbn [shr]. rewrite iter_pos_iter.
  destruct (shr_iter (Zpos m) k) as [Hq Hr]; [lia|].
  set (mrs := Pos.iter shr_1 {| shr_m := Zpos m; shr_r := false; shr_s := false |} k) in *.
  rewrite Hq.
  set (q := Zpos m / 2 ^ Zpos k) in *.
  assert (Hqlo : 2 ^ 52 <= q).
  { unfold q. apply Z.div_le_lower_bound; [lia|].
    rewrite <- Z.pow_add_r by lia. replace (Zpos k + 52) with (53 + Zpos k - 1) by lia. exact Blo. }
  assert (Hqhi : q < 2 ^ 53).
  { unfold q. apply Z.div_lt_upper_bound; [lia|].
    rewrite <- Z.pow_add_r by lia. replace (Zpos k + 53) with (53 + Zpos k) by lia. exact Bhi. }
  destruct (round_nearest_even_bounds q mrs) as [Hm Hup].
  assert (Hcarry : Zpos k = 971 -> round_nearest_even q (loc_of_shr_record mrs) = 2 ^ 53).
  { intros E. destruct Hbig as [|[_ Hge]]; [lia|].
    rewrite E in *. change (971 - 1) with 970 in Hr. change (53 + 971) with 1024 in Bhi.
    assert (Hh : Zpos m / 2 ^ 970 = 2 ^ 54 - 1).
    { assert (2 ^ 54 - 1 <= Zpos m / 2 ^ 970).
      { apply Z.div_le_lower_bound; [lia|].
        change (2 ^ 1024) with (2 ^ 970 * 2 ^ 54) in Hge. lia. }
      assert (Zpos m / 2 ^ 970 < 2 ^ 54).
      { apply Z.div_lt_upper_bound; [lia|].
        change (2 ^ 1024) with (2 ^ 970 * 2 ^ 54) in Bhi. lia. }
      lia. }
    assert (Hq' : q = 2 ^ 53 - 1).
    { unfold q. rewrite E. change (2 ^ 971) with (2 ^ 970 * 2). rewrite <- Z.div_div by lia.
      rewrite Hh. reflexivity. }
    rewrite round_nearest_even_up.
    - lia.
    - rewrite Hr, Hh. reflexivity.
    - rewrite Hq'. reflexivity. }
  set (m2 := round_nearest_even q (loc_of_shr_record mrs)) in *.
  assert (Hpos : 0 < m2) by lia.
  destruct m2 as [|p2|p2] eqn:Em2; try lia.
  destruct (Z_lt_le_dec (Zpos p2) (2 ^ 53)) as [Hlt|Hge].
  - assert (Hd2 : Zpos (digits2_pos p2) = 53).
    { apply digits2_unique; [|lia]. change (53 - 1) with 52. lia. }
    unfold shr_fexp. cbn [Zdigits2 shr_record_of_loc]. rewrite Hd2.
    rewrite fexp_small by lia.
    replace (53 + (0 + Zpos k) - 53 - (0 + Zpos k)) with 0 by lia.
    cbn [shr shr_m].
    replace (0 + Zpos k <=? 1024 - 53) with false; [reflexivity|].
    symmetry. apply Z.leb_gt.
    destruct (Z.eq_dec (Zpos k) 971) as [E|]; [specialize (Hcarry E)|]; lia.
  - assert (Hp2 : Zpos p2 = 2 ^ 53) by lia.
    assert (Hd2 : Zpos (digits2_pos p2) = 54).
    { apply digits2_unique; [|lia]. change (54 - 1) with 53. rewrite Hp2.
      split; [lia|]. apply Z.pow_lt_mono_r; lia. }
    unfold shr_fexp. cbn [Zdigits2 shr_record_of_loc]. rewrite Hd2.
    rewrite fexp_small by lia.
    replace (54 + (0 + Zpos k) - 53 - (0 + Zpos k)) with 1 by lia.
    cbn [shr iter_pos]. rewrite shr_1_nonneg by lia. cbn [shr_m].
    rewrite Hp2.
    change (2 ^ 53 / 2) with (Zpos (2 ^ 52)).
    replace (0 + Zpos k + 1 <=? 1024 - 53) with false; [reflexivity|].
    symmetry. apply Z.leb_gt. lia.
Qed.

Lemma binary_round_int_overflow (s : bool) (m : positive) :
  2 ^ 1024 - 2 ^ 970 <= Zpos m ->
  binary_round 53 1024 s m 0 = S754_infinity s.
Proof.
  intros Hm.
  destruct (digits2_bounds m) as [Blo Bhi].
  assert (Hd : 1024 <= Zpos (digits2_pos m)).
  { assert (1023 < Zpos (digits2_pos m)); [|lia].
    apply (Z.pow_lt_mono_r_iff 2); lia. }
  unfold binary_round. rewrite fexp_small by lia. unfold shl_align.
  destruct (Zpos (digits2_pos m) + 0 - 53 - 0) as [|k|k] eqn:E; try lia.
  apply (binary_round_aux_overflow s m k); lia.
Qed.

(** [float(n)] returns for the integers below [float_limit] in absolute
    value, and raises [OverflowError] for the others. *)
Lemma int_to_float_in_range (n : Z) :
  Z.abs n < float_limit -> int_to_float n = Ok (float_of_int n).
Proof.
  unfold float_limit, int_to_float, float_of_int, binary_normalize, prec, emax.
  intros Hn. destruct n as [|m|m].
  - reflexivity.
  - destruct (binary_round_int_finite false m) as (m' & e' & ->); [lia|reflexivity].
  - destruct (binary_round_int_finite true m) as (m' & e' & ->); [lia|reflexivity].
Qed.

Lemma int_to_float_overflow (n : Z) :
  float_limit <= Z.abs n -> int_to_float n = Raise OverflowError.
Proof.
  unfold float_limit, int_to_float, float_of_int, binary_normalize, prec, emax.
  intros Hn. destruct n as [|m|m].
  - cbn in Hn. lia.
  - rewrite binary_round_int_overflow by lia. reflexivity.
  - rewrite binary_round_int_overflow by lia. reflexivity.
Qed.

(** ** Unit selection *)

Lemma int_ge_float_1e12 (n : Z) : int_ge_float n f1e12 = (10 ^ 12 <=? n).
Proof.
  unfold int_ge_float, f1e12, cond_Zopp.
  change (0 <=? -13) with false. cbv iota.
  change (2 ^ (- -13)) with 8192. change (10 ^ 12) with 1000000000000.
  destruct (Z.leb_spec 8192000000000000 (n * 8192)),
           (Z.leb_spec 1000000000000 n); try reflexivity; lia.
Qed.

Lemma int_ge_float_1e9 (n : Z) : int_ge_float n f1e9 = (10 ^ 9 <=? n).
Proof.
  unfold int_ge_float, f1e9, cond_Zopp.
  change (0 <=? -23) with false. cbv iota.
  change (2 ^ (- -23)) with 8388608. change (10 ^ 9) with 1000000000.
  destruct (Z.leb_spec 8388608000000000 (n * 8388608)),
           (Z.leb_spec 1000000000 n); try reflexivity; lia.
Qed.

Lemma truediv_Ok (n : Z) (a d : float) :
  int_to_float n = Ok a ->
  float_is_zero d = false ->
  truediv n d = Ok (SFdiv prec emax a d).
Proof.
  intros Ha Hd. unfold truediv. rewrite Ha. simpl. rewrite Hd. reflexivity.
Qed.

Lemma truediv_overflow (n : Z) (d : float) :
  int_to_float n = Raise OverflowError ->
  truediv n d = Raise OverflowError.
Proof.
  intros Ha. unfold truediv. rewrite Ha. reflexivity.
Qed.

(** [to_readable] returns when the integer is within the range of a float
    and the unit is AUTO or has a non-zero conversion factor. *)
Lemma to_readable_returns (table : Units -> option float) (n : Z) (units : Units) :
  Z.abs n < float_limit ->
  units = AUTO \/ (exists f, table units = Some f /\ float_is_zero f = false) ->
  exists units_used x, to_readable table n units = Ok (units_used, x).
Proof.
  intros Hn Hu. pose proof (int_to_float_in_range n Hn) as Ha.
  unfold to_readable.
  destruct Hu as [-> | (f & Hf & Hz)].
  - cbn [Units_eqb].
    destruct (int_ge_float n f1e12); [|destruct (int_ge_float n f1e9)].
    + rewrite (truediv_Ok n _ f1e12 Ha eq_refl). cbn. eauto.
    + rewrite (truediv_Ok n _ f1e9 Ha eq_refl). cbn. eauto.
    + rewrite (truediv_Ok n _ f1e6 Ha eq_refl). cbn. eauto.
  - destruct (Units_eqb units AUTO).
    + destruct (int_ge_float n f1e12); [|destruct (int_ge_float n f1e9)].
      * rewrite (truediv_Ok n _ f1e12 Ha eq_refl). cbn. eauto.
      * rewrite (truediv_Ok n _ f1e9 Ha eq_refl). cbn. eauto.
      * rewrite (truediv_Ok n _ f1e6 Ha eq_refl). cbn. eauto.
    + unfold getitem. rewrite Hf. cbn [bind].
      rewrite (truediv_Ok n _ f Ha Hz). cbn. eauto.
Qed.

Section Readable.
Variable CONVERSION_FACTORS : Units -> option float.
Variable format_Units : Units -> string.

(** C7 (amended).  For an integer [n] within the range of a float, that
    is of absolute value below [2^1024 - 2^970]: [to_readable] with AUTO
    returns terabytes and [n / 1e12] from [1e12] on, gigabytes and
    [n / 1e9] from [1e9] up to [1e12], megabytes and [n / 1e6] below [1e9];
    with an explicit unit whose conversion factor is [f], not zero, it
    returns that unit unchanged and [n / f].  The quotients are those of
    the float nearest to [n].  For an integer outside that range the
    division raises [OverflowError], with AUTO and with every explicit unit
    that has a conversion factor. *)
Theorem to_readable_selects_unit (n : Z) :
  (Z.abs n < 2 ^ 1024 - 2 ^ 970 ->
   (10 ^ 12 <= n ->
    to_readable CONVERSION_FACTORS n AUTO
    = Ok (TERABYTES, SFdiv prec emax (float_of_int n) f1e12)) /\
   (10 ^ 9 <= n < 10 ^ 12 ->
    to_readable CONVERSION_FACTORS n AUTO
    = Ok (GIGABYTES, SFdiv prec emax (float_of_int n) f1e9)) /\
   (n < 10 ^ 9 ->
    to_readable CONVERSION_FACTORS n AUTO
    = Ok (MEGABYTES, SFdiv prec emax (float_of_int n) f1e6)) /\
   (forall (units : Units) (f : float),
      units <> AUTO ->
      CONVERSION_FACTORS units = Some f ->
      float_is_zero f = false ->
      to_readable CONVERSION_FACTORS n units
      = Ok (units, SFdiv prec emax (float_of_int n) f))) /\
  (2 ^ 1024 - 2 ^ 970 <= Z.abs n ->
   to_readable CONVERSION_FACTORS n AUTO = Raise OverflowError /\
   (forall (units : Units) (f : float),
      units <> AUTO ->
      CONVERSION_FACTORS units = Some f ->
      to_readable CONVERSION_FACTORS n units = Raise OverflowError)).
Proof.
  split.
  - intros Hn. pose proof (int_to_float_in_range n Hn) as Ha.
    unfold to_readable. cbn [Units_eqb].
    rewrite int_ge_float_1e12, int_ge_float_1e9.
    repeat split.
    + intros H. apply Z.leb_le in H. rewrite H.
      rewrite (truediv_Ok n _ f1e12 Ha eq_refl). reflexivity.
    + intros [H1 H2]. apply Z.leb_le in H1. apply Z.leb_gt in H2. rewrite H1, H2.
      rewrite (truediv_Ok n _ f1e9 Ha eq_refl). reflexivity.
    + intros H.
      assert (H1 : (10 ^ 12 <=? n) = false) by (apply Z.leb_gt; lia).
      assert (H2 : (10 ^ 9 <=? n) = false) by (apply Z.leb_gt; lia).
      rewrite H1, H2.
      rewrite (truediv_Ok n _ f1e6 Ha eq_refl). reflexivity.
    + intros units f Hu Hf Hz.
      assert (Hne : Units_eqb units AUTO = false)
        by (destruct units; try reflexivity; contradiction).
      rewrite Hne. unfold getitem. rewrite Hf. cbn [bind].
      rewrite (truediv_Ok n _ f Ha Hz). reflexivity.
  - intros Hn. pose proof (int_to_float_overflow n Hn) as Ha.
    unfold to_readable. cbn [Units_eqb]. split.
    + destruct (int_ge_float n f1e12); [|destruct (int_ge_float n f1e9)];
        rewrite (truediv_overflow n _ Ha); reflexivity.
    + intros units f Hu Hf.
      assert (Hne : Units_eqb units AUTO = false)
        by (destruct units; try reflexivity; contradiction).
      rewrite Hne. unfold getitem. rewrite Hf. cbn [bind].
      rewrite (truediv_overflow n f Ha). reflexivity.
Qed.
End Readable.

(** ** Formatted numbers *)

Lemma digit_char_is_digit (d : Z) : 0 <= d <= 9 -> is_digit (digit_char d) = true.
Proof.
  intros Hd.
  assert (H : d = 0 \/ d = 1 \/ d = 2 \/ d = 3 \/ d = 4 \/ d = 5 \/ d = 6 \/
              d = 7 \/ d = 8 \/ d = 9) by lia.
  repeat (destruct H as [-> | H]; [reflexivity|]). subst d. reflexivity.
Qed.

Lemma uint_digits (u : Decimal.uint) :
  Forall integer_char (list_ascii_of_string (NilEmpty.string_of_uint u)).
Proof.
  induction u; cbn; constructor; auto; left; reflexivity.
Qed.

Lemma decimal_digits_integer (n : Z) : Forall integer_char (decimal_digits n).
Proof. apply uint_digits. Qed.

Lemma commas_rev_integer (l : list ascii) :
  Forall integer_char l -> forall cnt, Forall integer_char (commas_rev cnt l).
Proof.
  induction 1 as [|c l Hc _ IH]; intros cnt; cbn.
  - constructor.
  - destruct (Nat.eqb cnt 3).
    + constructor; [right; left; reflexivity|]. constructor; auto.
    + constructor; auto.
Qed.

Lemma thousands_integer (l : list ascii) :
  Forall integer_char l -> Forall integer_char (thousands l).
Proof.
  intros H. unfold thousands.
  apply Forall_rev, commas_rev_integer, Forall_rev, H.
Qed.

Lemma sign_integer (s : bool) : Forall integer_char (if s then ["-"%char] else []).
Proof.
  destruct s; constructor; [right; right; reflexivity|constructor].
Qed.

(** Up to three digits take no comma; a further group of three digits takes
    one in front. *)
Lemma thousands_short (l : list ascii) : (List.length l <= 3)%nat -> thousands l = l.
Proof.
  intros H. unfold thousands.
  destruct l as [|a [|b [|c [|d l]]]]; cbn in H; try lia; reflexivity.
Qed.

Lemma commas_rev_3 (l : list ascii) :
  l <> [] -> commas_rev 3 l = ","%char :: commas_rev 0 l.
Proof.
  destruct l as [|c l]; [congruence|reflexivity].
Qed.

Lemma thousands_group (l : list ascii) (a b c : ascii) :
  l <> [] -> thousands (l ++ [a; b; c]) = thousands l ++ [","%char; a; b; c].
Proof.
  intros Hl. unfold thousands.
  rewrite rev_app_distr. cbn [rev app commas_rev Nat.eqb].
  rewrite commas_rev_3.
  - cbn [rev]. rewrite <- !app_assoc. reflexivity.
  - intros E. apply Hl. rewrite <- (rev_involutive l), E. reflexivity.
Qed.

Lemma format_comma_d_integer (z : Z) : integer_text (format_comma_d z).
Proof.
  unfold integer_text, format_comma_d.
  rewrite list_ascii_of_string_of_list_ascii.
  apply Forall_app. split.
  - apply sign_integer.
  - apply thousands_integer, decimal_digits_integer.
Qed.

Lemma fixed2_two_decimals (s : bool) (h : Z) : two_decimals (fixed2 s h).
Proof.
  unfold two_decimals, fixed2.
  exists ((if s then ["-"%char] else []) ++ thousands (decimal_digits (h / 100))),
    (digit_char (h mod 100 / 10)), (digit_char (h mod 10)).
  repeat split.
  - rewrite <- app_assoc. reflexivity.
  - apply Forall_app. split.
    + apply sign_integer.
    + apply thousands_integer, decimal_digits_integer.
  - apply digit_char_is_digit.
    pose proof (Z.mod_pos_bound h 100 ltac:(lia)).
    split; [apply Z.div_pos; lia|].
    apply Z.lt_succ_r. apply Z.div_lt_upper_bound; lia.
  - apply digit_char_is_digit.
    pose proof (Z.mod_pos_bound h 10 ltac:(lia)). lia.
Qed.

(** Zeros and finite floats are printed with two decimals. *)
Lemma format_comma_2f_two_decimals (x : float) :
  match x with
  | S754_zero _ | S754_finite _ _ _ => two_decimals (format_comma_2f x)
  | S754_infinity _ | S754_nan => True
  end.
Proof.
  destruct x; cbn [format_comma_2f]; auto using fixed2_two_decimals.
Qed.

Lemma is_integer_int_of_float (x : float) :
  is_integer x = true -> exists z, int_of_float x = Ok z.
Proof.
  destruct x; cbn; intros H; try discriminate; eauto.
Qed.

(** [format_output_num] returns exactly when [to_readable] does. *)
Lemma format_output_num_succeeds (table : Units -> option float)
    (label : Units -> string) (num : Z) (units : Units) :
  succeeds (format_output_num table label num units)
  = succeeds (to_readable table num units).
Proof.
  unfold format_output_num.
  destruct (to_readable table num units) as [[units_used x]|e]; [|reflexivity].
  cbn [bind]. destruct (is_integer x) eqn:Hint; [|reflexivity].
  destruct (is_integer_int_of_float x Hint) as [z ->]. reflexivity.
Qed.

Section Formatting.
Variable CONVERSION_FACTORS : Units -> option float.
Variable format_Units : Units -> string.

(** C8 (amended).  When [to_readable] resolves the unit [units_used] and
    the value [x], [format_output_num] returns the unit label in
    parentheses first (nothing for the unit NONE), then a colon and a
    space, then the number: [int(x)] printed as an integer with thousands
    separators when [x] is whole, and [x] printed with thousands separators
    and exactly two decimals otherwise. *)
Theorem format_output_num_text (num : Z) (units units_used : Units) (x : float) :
  to_readable CONVERSION_FACTORS num units = Ok (units_used, x) ->
  exists number : string,
    format_output_num CONVERSION_FACTORS format_Units num units
    = Ok ((if Units_eqb units_used NONE then ""
           else " (" ++ format_Units units_used ++ ")") ++ ": " ++ number)%string /\
    (is_integer x = true ->
     exists z, int_of_float x = Ok z /\ number = format_comma_d z /\
               integer_text number) /\
    (is_integer x = false ->
     number = format_comma_2f x /\
     match x with
     | S754_finite _ _ _ => two_decimals number
     | _ => True
     end).
Proof.
  intros Hr. unfold format_output_num. rewrite Hr. cbn [bind].
  destruct (is_integer x) eqn:Hint.
  - destruct (is_integer_int_of_float x Hint) as [z Hz].
    rewrite Hz. cbn [bind format_number].
    exists (format_comma_d z). split; [reflexivity|]. split.
    + intros _. exists z. auto using format_comma_d_integer.
    + discriminate.
  - cbn [bind format_number].
    exists (format_comma_2f x). split; [reflexivity|]. split.
    + discriminate.
    + intros _. split; [reflexivity|].
      pose proof (format_comma_2f_two_decimals x) as H2.
      destruct x; auto.
Qed.
End Formatting.

(** ** The report *)

Section Report.
Variables InputSize DeviceProfile Energy FormattingOptions : Type.
Variable set_layer_name_width :
  FormattingOptions -> list (LayerInfo.t Energy) -> FormattingOptions.
Variable get_total_width : FormattingOptions -> Z.
Variable header_row : FormattingOptions -> string.
Variable layers_to_str : FormattingOptions -> list (LayerInfo.t Energy) -> Z -> string.
Variable params_units : FormattingOptions -> Units.
Variable str_DeviceProfile : DeviceProfile -> string.
Variable format_Energy : Energy -> string.
Variable CONVERSION_FACTORS : Units -> option float.
Variable format_Units : Units -> string.







(** The counts can be formatted when they are within the range of a float
    and the unit of the collaborator is AUTO or has a non-zero factor. *)
Lemma params_formatted_in_range
    (self : ModelStatistics InputSize DeviceProfile Energy FormattingOptions) :
  Z.abs (total_params self) < float_limit ->
  Z.abs (trainable_params self) < float_limit ->
  Z.abs (total_params self - trainable_params self) < float_limit ->
  params_units (formatting self) = AUTO \/
  (exists f, CONVERSION_FACTORS (params_units (formatting self)) = Some f /\
             float_is_zero f = false) ->
  params_formatted params_units CONVERSION_FACTORS format_Units self = true.
Proof.
  intros H1 H2 H3 Hu. unfold params_formatted.
  rewrite !format_output_num_succeeds.
  destruct (to_readable_returns CONVERSION_FACTORS _ _ H1 Hu) as (u1 & x1 & ->).
  destruct (to_readable_returns CONVERSION_FACTORS _ _ H2 Hu) as (u2 & x2 & ->).
  destruct (to_readable_returns CONVERSION_FACTORS _ _ H3 Hu) as (u3 & x3 & ->).
  reflexivity.
Qed.


End Report.

(** ** Examples *)

(** The thresholds of AUTO, on the values around them. *)
Example to_readable_below_giga :
  to_readable Example.CONVERSION_FACTORS 999999999 AUTO
  = Ok (MEGABYTES, SFdiv prec emax (float_of_int 999999999) f1e6).
Proof. vm_compute. reflexivity. Qed.

Example to_readable_giga :
  to_readable Example.CONVERSION_FACTORS 1000000000 AUTO = Ok (GIGABYTES, float_of_int 1).
Proof. vm_compute. reflexivity. Qed.

Example to_readable_tera :
  to_readable Example.CONVERSION_FACTORS 1000000000000 AUTO = Ok (TERABYTES, float_of_int 1).
Proof. vm_compute. reflexivity. Qed.

(** An explicit unit is kept even when the quotient is below one. *)
Example format_output_num_explicit :
  format_output_num Example.CONVERSION_FACTORS Example.format_Units 2000000 GIGABYTES
  = Ok " (GIGABYTES): 0.00"%string.
Proof. vm_compute. reflexivity. Qed.

(** Whole values take no decimals, the others two; no label for NONE. *)
Example format_output_num_whole :
  format_output_num Example.CONVERSION_FACTORS Example.format_Units 5000000 MEGABYTES
  = Ok " (MEGABYTES): 5"%string.
Proof. vm_compute. reflexivity. Qed.

Example format_output_num_fraction :
  format_output_num Example.CONVERSION_FACTORS Example.format_Units 1234500000 MEGABYTES
  = Ok " (MEGABYTES): 1,234.50"%string.
Proof. vm_compute. reflexivity. Qed.

Example format_output_num_none :
  format_output_num Example.CONVERSION_FACTORS Example.format_Units 1234567 NONE
  = Ok ": 1,234,567"%string.
Proof. vm_compute. reflexivity. Qed.

(** Ties go to the even hundredth of the exact binary value. *)
Example format_output_num_half_even :
  format_output_num Example.CONVERSION_FACTORS Example.format_Units 125000 MEGABYTES
  = Ok " (MEGABYTES): 0.12"%string /\
  format_output_num Example.CONVERSION_FACTORS Example.format_Units 375000 MEGABYTES
  = Ok " (MEGABYTES): 0.38"%string.
Proof. split; vm_compute; reflexivity. Qed.

(** The largest integer that converts, and the first that does not. *)
Example int_to_float_limit :
  succeeds (int_to_float (float_limit - 1)) = true /\
  int_to_float float_limit = Raise OverflowError.
Proof. split; vm_compute; reflexivity. Qed.

(** Two non-recursive leaves, the second with negative counts: the totals
    are [10 + 0] and [5 + 0]. *)
Lemma leaf_only_totals_witness :
  Forall (fun l : LayerInfo.t Z =>
            LayerInfo.is_leaf_layer l = true /\ LayerInfo.is_recursive l = false)
    [Example.leaf false 10 5 100 16 40 [3]; Example.leaf false (-3) (-1) 7 8 0 []] /\
  match Example.init
          [Example.leaf false 10 5 100 16 40 [3]; Example.leaf false (-3) (-1) 7 8 0 []]
          ["cpu"%string] with
  | Ok self =>
      total_params self
      = Zsum (map (fun l => Z.max (LayerInfo.num_params l) 0)
                [Example.leaf false 10 5 100 16 40 [3];
                 Example.leaf false (-3) (-1) 7 8 0 []]) /\
      trainable_params self
      = Zsum (map (fun l => Z.max (LayerInfo.trainable_params l) 0)
                [Example.leaf false 10 5 100 16 40 [3];
                 Example.leaf false (-3) (-1) 7 8 0 []])
  | Raise _ =>
      [Example.leaf false 10 5 100 16 40 [3]; Example.leaf false (-3) (-1) 7 8 0 []] = []
  end.
Proof.
  assert (H : Forall (fun l : LayerInfo.t Z =>
            LayerInfo.is_leaf_layer l = true /\ LayerInfo.is_recursive l = false)
    [Example.leaf false 10 5 100 16 40 [3]; Example.leaf false (-3) (-1) 7 8 0 []]).
  { repeat constructor. }
  split; [exact H|].
  exact (leaf_only_totals unit string Z Example.Formatting Example.set_layer_name_width
           _ tt 0 Example.formatting0 ["cpu"%string] H).
Defined.

(** A container with a leftover of [-5] after a leaf of ten parameters:
    the total stays at ten. *)
Lemma nonleaf_leftover_clamped_witness :
  LayerInfo.is_leaf_layer (Example.container false 20 (-5) 2) = false /\
  total_params
    (fold_left loop_body
       ([Example.leaf false 10 5 100 16 40 [3]] ++ [Example.container false 20 (-5) 2])
       Example.self0)
  = total_params (fold_left loop_body [Example.leaf false 10 5 100 16 40 [3]] Example.self0)
    + Z.max (-5) 0.
Proof.
  split; [reflexivity|].
  exact (proj1 (proj1 (proj2 (proj1
    (nonleaf_leftover_clamped unit string Z Example.Formatting
       Example.set_layer_name_width
       [Example.leaf false 10 5 100 16 40 [3]] [] (Example.container false 20 (-5) 2)
       Example.self0 tt 0 Example.formatting0 [] eq_refl))) eq_refl)).
Defined.

(** A recursive copy of a leaf adds its hundred operations and no
    parameters. *)
Lemma recursive_leaf_counts_macs_only_witness :
  LayerInfo.is_leaf_layer (Example.leaf true 10 5 100 16 40 []) = true /\
  LayerInfo.is_recursive (Example.leaf true 10 5 100 16 40 []) = true /\
  total_mult_adds
    (fold_left loop_body
       ([Example.leaf false 10 5 100 16 40 [3]] ++ [Example.leaf true 10 5 100 16 40 []])
       Example.self0)
  = total_mult_adds
      (fold_left loop_body [Example.leaf false 10 5 100 16 40 [3]] Example.self0) + 100.
Proof.
  split; [reflexivity|]. split; [reflexivity|].
  exact (proj1 (proj1
    (recursive_leaf_counts_macs_only unit string Z Example.Formatting
       Example.set_layer_name_width
       [Example.leaf false 10 5 100 16 40 [3]] [] (Example.leaf true 10 5 100 16 40 [])
       Example.self0 tt 0 Example.formatting0 [] eq_refl eq_refl))).
Defined.

(** A leaf without parameters still has its [param_bytes] counted, and a
    negative [param_bytes] makes the total negative. *)
Lemma total_param_bytes_counterexample :
  (exists self,
     Example.init [Example.leaf false 0 0 0 0 8 []] [] = Ok self /\
     total_param_bytes self
     <> sum_over (@LayerInfo.param_bytes Z)
          (fun l => LayerInfo.is_leaf_layer l && negb (LayerInfo.is_recursive l) &&
                    (LayerInfo.num_params l >? 0))
          [Example.leaf false 0 0 0 0 8 []]) /\
  (exists self,
     Example.init [Example.leaf false 1 1 0 0 (-8) []] [] = Ok self /\
     ~ 0 <= total_param_bytes self).
Proof.
  split; eexists; (split; [reflexivity|]); vm_compute; congruence.
Qed.

Lemma total_param_bytes_sum_witness :
  Forall (fun l : LayerInfo.t Z =>
            LayerInfo.is_leaf_layer l = true -> LayerInfo.is_recursive l = false ->
            0 <= LayerInfo.param_bytes l)
    [Example.leaf false 0 0 0 0 8 []; Example.leaf true 4 4 0 0 16 []] /\
  exists self,
    Example.init [Example.leaf false 0 0 0 0 8 []; Example.leaf true 4 4 0 0 16 []] []
    = Ok self /\
    total_param_bytes self = 8 /\ 0 <= total_param_bytes self.
Proof.
  assert (H : Forall (fun l : LayerInfo.t Z =>
            LayerInfo.is_leaf_layer l = true -> LayerInfo.is_recursive l = false ->
            0 <= LayerInfo.param_bytes l)
    [Example.leaf false 0 0 0 0 8 []; Example.leaf true 4 4 0 0 16 []]).
  { constructor; [intros _ _; discriminate|].
    constructor; [intros _ Hrec; discriminate Hrec|constructor]. }
  split; [exact H|].
  eexists. split; [reflexivity|].
  exact (conj (proj1
    (total_param_bytes_sum unit string Z Example.Formatting Example.set_layer_name_width
       [Example.leaf false 0 0 0 0 8 []; Example.leaf true 4 4 0 0 16 []]
       tt 0 Example.formatting0 []))
    (proj2
    (total_param_bytes_sum unit string Z Example.Formatting Example.set_layer_name_width
       [Example.leaf false 0 0 0 0 8 []; Example.leaf true 4 4 0 0 16 []]
       tt 0 Example.formatting0 []) H)).
Defined.

(** One device profile against a first record without energy
    contributions: construction returns all the same. *)
Lemma init_accepts_mismatch_counterexample :
  exists self,
    Example.init [Example.leaf false 1 1 0 0 4 []] ["cpu"%string] = Ok self /\
    List.length (device_profiles self) = 1%nat /\
    List.length (LayerInfo.total_energy_contributions (Example.leaf false 1 1 0 0 4 []))
    = 0%nat.
Proof.
  eexists. split; [reflexivity|]. split; reflexivity.
Qed.

(** [2^1024] is beyond the floats: the division raises. *)
Lemma to_readable_counterexample :
  10 ^ 12 <= 2 ^ 1024 /\
  to_readable Example.CONVERSION_FACTORS (2 ^ 1024) AUTO = Raise OverflowError.
Proof.
  split; [vm_compute; discriminate|vm_compute; reflexivity].
Qed.

Lemma to_readable_selects_unit_witness :
  Z.abs (2 * 10 ^ 12) < 2 ^ 1024 - 2 ^ 970 /\
  10 ^ 12 <= 2 * 10 ^ 12 /\
  to_readable Example.CONVERSION_FACTORS (2 * 10 ^ 12) AUTO
  = Ok (TERABYTES, SFdiv prec emax (float_of_int (2 * 10 ^ 12)) f1e12) /\
  to_readable Example.CONVERSION_FACTORS (2 * 10 ^ 12) GIGABYTES
  = Ok (GIGABYTES, SFdiv prec emax (float_of_int (2 * 10 ^ 12)) f1e9) /\
  2 ^ 1024 - 2 ^ 970 <= Z.abs (2 ^ 1024) /\
  to_readable Example.CONVERSION_FACTORS (2 ^ 1024) AUTO = Raise OverflowError /\
  to_readable Example.CONVERSION_FACTORS (2 ^ 1024) GIGABYTES = Raise OverflowError.
Proof.
  assert (Hr : Z.abs (2 * 10 ^ 12) < 2 ^ 1024 - 2 ^ 970) by (vm_compute; reflexivity).
  assert (Hn : 10 ^ 12 <= 2 * 10 ^ 12) by (vm_compute; discriminate).
  assert (Ho : 2 ^ 1024 - 2 ^ 970 <= Z.abs (2 ^ 1024)) by (vm_compute; discriminate).
  assert (Hg : GIGABYTES <> AUTO) by discriminate.
  split; [exact Hr|]. split; [exact Hn|]. split; [|split; [|split; [exact Ho|split]]].
  - exact (proj1 (proj1 (to_readable_selects_unit Example.CONVERSION_FACTORS
                           (2 * 10 ^ 12)) Hr) Hn).
  - exact (proj2 (proj2 (proj2 (proj1
             (to_readable_selects_unit Example.CONVERSION_FACTORS (2 * 10 ^ 12)) Hr)))
             GIGABYTES f1e9 Hg eq_refl eq_refl).
  - exact (proj1 (proj2 (to_readable_selects_unit Example.CONVERSION_FACTORS
                           (2 ^ 1024)) Ho)).
  - exact (proj2 (proj2 (to_readable_selects_unit Example.CONVERSION_FACTORS
                           (2 ^ 1024)) Ho) GIGABYTES f1e9 Hg eq_refl).
Defined.

(** The unit label comes before the colon, not after the number. *)
Lemma format_output_num_counterexample :
  format_output_num Example.CONVERSION_FACTORS Example.format_Units 12340000000 AUTO
  = Ok " (GIGABYTES): 12.34"%string /\
  format_output_num Example.CONVERSION_FACTORS Example.format_Units 12340000000 AUTO
  <> Ok ": 12.34 (GIGABYTES)"%string.
Proof.
  split; [vm_compute; reflexivity|vm_compute; discriminate].
Qed.

Lemma format_output_num_text_witness :
  to_readable Example.CONVERSION_FACTORS 1234500000 MEGABYTES
  = Ok (MEGABYTES, SFdiv prec emax (float_of_int 1234500000) f1e6) /\
  exists number : string,
    format_output_num Example.CONVERSION_FACTORS Example.format_Units 1234500000 MEGABYTES
    = Ok (" (" ++ Example.format_Units MEGABYTES ++ ")" ++ ": " ++ number)%string /\
    number = "1,234.50"%string.
Proof.
  assert (H : to_readable Example.CONVERSION_FACTORS 1234500000 MEGABYTES
              = Ok (MEGABYTES, SFdiv prec emax (float_of_int 1234500000) f1e6))
    by (vm_compute; reflexivity).
  split; [exact H|].
  destruct (format_output_num_text Example.CONVERSION_FACTORS Example.format_Units
              1234500000 MEGABYTES MEGABYTES _ H) as (number & Hf & _ & Hd).
  exists number. split; [exact Hf|].
  destruct (Hd eq_refl) as [-> _]. vm_compute. reflexivity.
Defined.




(** A width of [2^63] does not fit an index: the divider raises before
    anything else, and so does [__repr__]. *)
Example repr_width_overflow :
  __repr__ (fun _ : Example.Formatting => 2 ^ 63) Example.header_row
    Example.layers_to_str Example.params_units Example.str_DeviceProfile
    Example.format_Energy Example.CONVERSION_FACTORS Example.format_Units
    (mkModelStatistics [] tt Example.formatting0 0 0 10 5 40 32 0
       ["cpu"%string] [3])
  = Raise OverflowError.
Proof. vm_compute. reflexivity. Qed.

(** * Further properties *)

(** ** The object construction returns *)

Section Built.
Variables InputSize DeviceProfile Energy FormattingOptions : Type.
Variable set_layer_name_width :
  FormattingOptions -> list (LayerInfo.t Energy) -> FormattingOptions.

(** Each update on an object given by its fields. *)
Lemma add_fields (sl : list (LayerInfo.t Energy)) (isz : InputSize)
    (f : FormattingOptions) (ti a b c d e te : Z) (dps : list DeviceProfile)
    (en : list Energy) (v : Z) :
  add_total_mult_adds (mkModelStatistics sl isz f ti a b c d e te dps en) v
  = mkModelStatistics sl isz f ti (a + v) b c d e te dps en /\
  add_total_params (mkModelStatistics sl isz f ti a b c d e te dps en) v
  = mkModelStatistics sl isz f ti a (b + v) c d e te dps en /\
  add_trainable_params (mkModelStatistics sl isz f ti a b c d e te dps en) v
  = mkModelStatistics sl isz f ti a b (c + v) d e te dps en /\
  add_total_param_bytes (mkModelStatistics sl isz f ti a b c d e te dps en) v
  = mkModelStatistics sl isz f ti a b c (d + v) e te dps en /\
  add_total_output_bytes (mkModelStatistics sl isz f ti a b c d e te dps en) v
  = mkModelStatistics sl isz f ti a b c d (e + v) te dps en.
Proof. repeat split. Qed.

(** One iteration changes the five counters and nothing else. *)
Lemma loop_body_fields (sl : list (LayerInfo.t Energy)) (isz : InputSize)
    (f : FormattingOptions) (ti a b c d e te : Z) (dps : list DeviceProfile)
    (en : list Energy) (l : LayerInfo.t Energy) :
  loop_body (mkModelStatistics sl isz f ti a b c d e te dps en) l
  = mkModelStatistics sl isz f ti (a + mult_adds_added l) (b + params_added l)
      (c + trainable_added l) (d + param_bytes_added l) (e + output_bytes_added l)
      te dps en.
Proof.
  unfold loop_body, mult_adds_added, params_added, trainable_added,
    param_bytes_added, output_bytes_added.
  destruct (LayerInfo.is_leaf_layer l), (LayerInfo.is_recursive l),
    (LayerInfo.num_params l >? 0);
    cbv zeta; cbn [andb negb];
    repeat (first
      [ rewrite (proj1 (add_fields _ _ _ _ _ _ _ _ _ _ _ _ _))
      | rewrite (proj1 (proj2 (add_fields _ _ _ _ _ _ _ _ _ _ _ _ _)))
      | rewrite (proj1 (proj2 (proj2 (add_fields _ _ _ _ _ _ _ _ _ _ _ _ _))))
      | rewrite (proj1 (proj2 (proj2 (proj2 (add_fields _ _ _ _ _ _ _ _ _ _ _ _ _)))))
      | rewrite (proj2 (proj2 (proj2 (proj2 (add_fields _ _ _ _ _ _ _ _ _ _ _ _ _))))) ]);
    rewrite ?Z.add_0_r; reflexivity.
Qed.

Lemma fold_loop_body_fields (layers : list (LayerInfo.t Energy)) :
  forall (sl : list (LayerInfo.t Energy)) (isz : InputSize)
    (f : FormattingOptions) (ti a b c d e te : Z) (dps : list DeviceProfile)
    (en : list Energy),
  fold_left loop_body layers (mkModelStatistics sl isz f ti a b c d e te dps en)
  = mkModelStatistics sl isz f ti
      (a + Zsum (map mult_adds_added layers)) (b + Zsum (map params_added layers))
      (c + Zsum (map trainable_added layers))
      (d + Zsum (map param_bytes_added layers))
      (e + Zsum (map output_bytes_added layers)) te dps en.
Proof.
  induction layers as [|l layers IH]; intros; cbn [fold_left map Zsum fold_right].
  - f_equal; lia.
  - rewrite loop_body_fields, IH. unfold Zsum. f_equal; lia.
Qed.

(** The whole of [__init__] in closed form. *)
Lemma init_closed_form (layers : list (LayerInfo.t Energy)) (input_size : InputSize)
    (total_input_size : Z) (fmt : FormattingOptions) (dps : list DeviceProfile) :
  __init__ set_layer_name_width layers input_size total_input_size fmt dps
  = match layers with
    | [] => Raise IndexError
    | first :: _ =>
        Ok (mkModelStatistics layers input_size (set_layer_name_width fmt layers)
              total_input_size
              (Zsum (map mult_adds_added layers)) (Zsum (map params_added layers))
              (Zsum (map trainable_added layers))
              (Zsum (map param_bytes_added layers))
              (Zsum (map output_bytes_added layers)) 0 dps
              (LayerInfo.total_energy_contributions first))
    end.
Proof.
  destruct layers as [|first rest]; [reflexivity|].
  unfold __init__. cbn [nth_error].
  rewrite fold_loop_body_fields. reflexivity.
Qed.

Lemma Zsum_nonneg (l : list Z) : Forall (fun x => 0 <= x) l -> 0 <= Zsum l.
Proof.
  unfold Zsum. induction 1 as [|x l Hx _ IH]; cbn in *; lia.
Qed.

Lemma Zsum_map_le {A : Type} (f g : A -> Z) (l : list A) :
  Forall (fun x => f x <= g x) l -> Zsum (map f l) <= Zsum (map g l).
Proof.
  unfold Zsum. induction 1 as [|x l Hx _ IH]; cbn in *; lia.
Qed.

Lemma Zsum_map_Permutation {A : Type} (f : A -> Z) (l l' : list A) :
  Permutation l l' -> Zsum (map f l) = Zsum (map f l').
Proof.
  unfold Zsum. induction 1; cbn in *; lia.
Qed.

(** An increment that vanishes outside [p] sums to the same over the
    elements of [p] alone. *)
Lemma Zsum_map_filter {A : Type} (f : A -> Z) (p : A -> bool) (l : list A) :
  (forall x, p x = false -> f x = 0) ->
  Zsum (map f (filter p l)) = Zsum (map f l).
Proof.
  intros Hf. unfold Zsum. induction l as [|x l IH]; cbn; [reflexivity|].
  destruct (p x) eqn:Hp; cbn; rewrite IH; [reflexivity|].
  rewrite (Hf x Hp). lia.
Qed.

(** X1.  [total_mult_adds] is the sum of [macs] over all the leaf records,
    recursive or not. *)
Theorem total_mult_adds_sum (layers : list (LayerInfo.t Energy)) (input_size : InputSize)
    (total_input_size : Z) (fmt : FormattingOptions) (dps : list DeviceProfile) :
  match __init__ set_layer_name_width layers input_size total_input_size fmt dps with
  | Ok self =>
      total_mult_adds self
      = sum_over (@LayerInfo.macs Energy) (@LayerInfo.is_leaf_layer Energy) layers
  | Raise _ => layers = []
  end.
Proof.
  rewrite init_closed_form. destruct layers as [|l rest]; [reflexivity|].
  cbn [total_mult_adds].
  apply Zsum_filtered. intros x. reflexivity.
Qed.

(** X2.  Whatever the counts of the records, negative ones included, the
    object built has [0 <= total_params] and [0 <= trainable_params]. *)
Theorem totals_never_negative (layers : list (LayerInfo.t Energy)) (input_size : InputSize)
    (total_input_size : Z) (fmt : FormattingOptions) (dps : list DeviceProfile) :
  match __init__ set_layer_name_width layers input_size total_input_size fmt dps with
  | Ok self => 0 <= total_params self /\ 0 <= trainable_params self
  | Raise _ => layers = []
  end.
Proof.
  rewrite init_closed_form. destruct layers as [|l rest]; [reflexivity|].
  cbn [total_params trainable_params].
  split; apply Zsum_nonneg, Forall_map, Forall_forall; intros x _.
  - unfold params_added.
    destruct (LayerInfo.is_recursive x), (LayerInfo.is_leaf_layer x); lia.
  - unfold trainable_added.
    destruct (LayerInfo.is_recursive x), (LayerInfo.is_leaf_layer x); lia.
Qed.

(** X3.  When every leaf record has [trainable_params <= num_params] and
    every other record has its trainable leftover at most its leftover, the
    object built has [trainable_params <= total_params]. *)
Theorem trainable_at_most_total (layers : list (LayerInfo.t Energy)) (input_size : InputSize)
    (total_input_size : Z) (fmt : FormattingOptions) (dps : list DeviceProfile) :
  Forall (fun l =>
            if LayerInfo.is_leaf_layer l
            then LayerInfo.trainable_params l <= LayerInfo.num_params l
            else LayerInfo.leftover_trainable_params l <= LayerInfo.leftover_params l)
    layers ->
  match __init__ set_layer_name_width layers input_size total_input_size fmt dps with
  | Ok self => trainable_params self <= total_params self
  | Raise _ => layers = []
  end.
Proof.
  intros Hall.
  rewrite init_closed_form. destruct layers as [|l rest]; [reflexivity|].
  cbn [total_params trainable_params].
  apply Zsum_map_le. revert Hall. apply Forall_impl. intros x Hx.
  unfold trainable_added, params_added.
  destruct (LayerInfo.is_recursive x), (LayerInfo.is_leaf_layer x); lia.
Qed.
(** X4.  Counting is additive: the object built from two non-empty
    sequences put end to end has, for each of the five counters, the sum of
    the counters of the objects built from each; its energies are those of
    the first. *)
Theorem counters_additive (la lb : LayerInfo.t Energy) (ra rb : list (LayerInfo.t Energy))
    (input_size : InputSize) (total_input_size : Z) (fmt : FormattingOptions)
    (dps : list DeviceProfile) :
  exists sa sb sab,
    __init__ set_layer_name_width (la :: ra) input_size total_input_size fmt dps = Ok sa /\
    __init__ set_layer_name_width (lb :: rb) input_size total_input_size fmt dps = Ok sb /\
    __init__ set_layer_name_width ((la :: ra) ++ lb :: rb) input_size total_input_size
      fmt dps = Ok sab /\
    total_mult_adds sab = total_mult_adds sa + total_mult_adds sb /\
    total_params sab = total_params sa + total_params sb /\
    trainable_params sab = trainable_params sa + trainable_params sb /\
    total_param_bytes sab = total_param_bytes sa + total_param_bytes sb /\
    total_output_bytes sab = total_output_bytes sa + total_output_bytes sb /\
    total_energies sab = total_energies sa.
Proof.
  rewrite !init_closed_form. cbn [app].
  do 3 eexists. split; [reflexivity|]. split; [reflexivity|]. split; [reflexivity|].
  cbn [total_mult_adds total_params trainable_params total_param_bytes
       total_output_bytes total_energies].
  change (la :: ra ++ lb :: rb) with ((la :: ra) ++ lb :: rb).
  rewrite !map_app, !Zsum_app. repeat split; reflexivity.
Qed.

(** X5.  The counters do not depend on the order of the records: two
    sequences that are permutations of each other give the same five
    counters (and fail together). *)
Theorem counters_order_independent (layers layers' : list (LayerInfo.t Energy))
    (input_size : InputSize) (total_input_size : Z) (fmt : FormattingOptions)
    (dps : list DeviceProfile) :
  Permutation layers layers' ->
  match __init__ set_layer_name_width layers input_size total_input_size fmt dps,
        __init__ set_layer_name_width layers' input_size total_input_size fmt dps with
  | Ok self, Ok self' =>
      total_mult_adds self = total_mult_adds self' /\
      total_params self = total_params self' /\
      trainable_params self = trainable_params self' /\
      total_param_bytes self = total_param_bytes self' /\
      total_output_bytes self = total_output_bytes self'
  | Raise e, Raise e' => e = e'
  | _, _ => False
  end.
Proof.
  intros Hperm. rewrite !init_closed_form.
  destruct layers as [|l rest], layers' as [|l' rest'].
  - reflexivity.
  - apply Permutation_nil in Hperm. discriminate.
  - apply Permutation_sym, Permutation_nil in Hperm. discriminate.
  - cbn [total_mult_adds total_params trainable_params total_param_bytes
         total_output_bytes].
    repeat split; apply Zsum_map_Permutation, Hperm.
Qed.

(** X6.  The object built keeps the sequence, the input size and the total
    input size it was given; its collaborator is the one given after
    [set_layer_name_width] on that sequence; its [total_energy] is [0],
    which no record changes. *)
Theorem init_keeps_arguments (layers : list (LayerInfo.t Energy)) (isz : InputSize)
    (total_input_size : Z) (fmt : FormattingOptions) (dps : list DeviceProfile) :
  match __init__ set_layer_name_width layers isz total_input_size fmt dps with
  | Ok self =>
      summary_list self = layers /\
      input_size self = isz /\
      total_input self = total_input_size /\
      formatting self = set_layer_name_width fmt layers /\
      total_energy self = 0
  | Raise _ => layers = []
  end.
Proof.
  rewrite init_closed_form. destruct layers as [|l rest]; [reflexivity|].
  cbn. repeat split.
Qed.

(** X7.  Recursive records are invisible to the parameter counters:
    building from the sequence without its recursive records gives the same
    [total_params], [trainable_params] and [total_param_bytes]; when
    nothing is left these are all zero. *)
Theorem recursive_records_not_counted (layers : list (LayerInfo.t Energy))
    (isz : InputSize) (total_input_size : Z) (fmt : FormattingOptions)
    (dps : list DeviceProfile) :
  match __init__ set_layer_name_width layers isz total_input_size fmt dps with
  | Ok self =>
      match __init__ set_layer_name_width
              (filter (fun l => negb (LayerInfo.is_recursive l)) layers)
              isz total_input_size fmt dps with
      | Ok kept =>
          total_params self = total_params kept /\
          trainable_params self = trainable_params kept /\
          total_param_bytes self = total_param_bytes kept
      | Raise _ =>
          total_params self = 0 /\ trainable_params self = 0 /\
          total_param_bytes self = 0
      end
  | Raise _ => layers = []
  end.
Proof.
  rewrite !init_closed_form. destruct layers as [|l rest]; [reflexivity|].
  cbn [total_params trainable_params total_param_bytes].
  set (p := fun l0 : LayerInfo.t Energy => negb (LayerInfo.is_recursive l0)).
  assert (Hp : Zsum (map params_added (filter p (l :: rest)))
               = Zsum (map params_added (l :: rest))).
  { apply Zsum_map_filter. intros x Hx. unfold p in Hx. unfold params_added.
    destruct (LayerInfo.is_recursive x); [reflexivity|discriminate]. }
  assert (Ht : Zsum (map trainable_added (filter p (l :: rest)))
               = Zsum (map trainable_added (l :: rest))).
  { apply Zsum_map_filter. intros x Hx. unfold p in Hx. unfold trainable_added.
    destruct (LayerInfo.is_recursive x); [reflexivity|discriminate]. }
  assert (Hb : Zsum (map param_bytes_added (filter p (l :: rest)))
               = Zsum (map param_bytes_added (l :: rest))).
  { apply Zsum_map_filter. intros x Hx. unfold p in Hx. unfold param_bytes_added.
    destruct (LayerInfo.is_recursive x); [|discriminate].
    rewrite andb_false_r. reflexivity. }
  destruct (filter p (l :: rest)) as [|k kept].
  - cbn in Hp, Ht, Hb. auto.
  - cbn [total_params trainable_params total_param_bytes]. auto.
Qed.

(** X8.  Container records are invisible to the operation and byte
    counters: building from the leaf records alone gives the same
    [total_mult_adds], [total_param_bytes] and [total_output_bytes]; when
    there is no leaf these are all zero. *)
Theorem containers_not_counted_in_bytes (layers : list (LayerInfo.t Energy))
    (isz : InputSize) (total_input_size : Z) (fmt : FormattingOptions)
    (dps : list DeviceProfile) :
  match __init__ set_layer_name_width layers isz total_input_size fmt dps with
  | Ok self =>
      match __init__ set_layer_name_width
              (filter (@LayerInfo.is_leaf_layer Energy) layers)
              isz total_input_size fmt dps with
      | Ok leaves =>
          total_mult_adds self = total_mult_adds leaves /\
          total_param_bytes self = total_param_bytes leaves /\
          total_output_bytes self = total_output_bytes leaves
      | Raise _ =>
          total_mult_adds self = 0 /\ total_param_bytes self = 0 /\
          total_output_bytes self = 0
      end
  | Raise _ => layers = []
  end.
Proof.
  rewrite !init_closed_form. destruct layers as [|l rest]; [reflexivity|].
  cbn [total_mult_adds total_param_bytes total_output_bytes].
  set (p := @LayerInfo.is_leaf_layer Energy).
  assert (Hm : Zsum (map mult_adds_added (filter p (l :: rest)))
               = Zsum (map mult_adds_added (l :: rest))).
  { apply Zsum_map_filter. intros x Hx. unfold p in Hx. unfold mult_adds_added.
    rewrite Hx. reflexivity. }
  assert (Hb : Zsum (map param_bytes_added (filter p (l :: rest)))
               = Zsum (map param_bytes_added (l :: rest))).
  { apply Zsum_map_filter. intros x Hx. unfold p in Hx. unfold param_bytes_added.
    rewrite Hx. reflexivity. }
  assert (Ho : Zsum (map output_bytes_added (filter p (l :: rest)))
               = Zsum (map output_bytes_added (l :: rest))).
  { apply Zsum_map_filter. intros x Hx. unfold p in Hx. unfold output_bytes_added.
    rewrite Hx. reflexivity. }
  destruct (filter p (l :: rest)) as [|k kept].
  - cbn in Hm, Hb, Ho. auto.
  - cbn [total_mult_adds total_param_bytes total_output_bytes]. auto.
Qed.
End Built.

(** ** When the conversions raise *)

Lemma int_to_float_cases (n : Z) :
  int_to_float n
  = if float_limit <=? Z.abs n then Raise OverflowError else Ok (float_of_int n).
Proof.
  destruct (Z.leb_spec float_limit (Z.abs n)) as [H|H].
  - apply int_to_float_overflow, H.
  - apply int_to_float_in_range, H.
Qed.

Lemma truediv_cases (num : Z) (d : float) :
  truediv num d
  = if float_limit <=? Z.abs num then Raise OverflowError
    else if float_is_zero d then Raise ZeroDivisionError
    else Ok (SFdiv prec emax (float_of_int num) d).
Proof.
  unfold truediv. rewrite int_to_float_cases.
  destruct (float_limit <=? Z.abs num); reflexivity.
Qed.

(** X9.  With AUTO, [to_readable] does not look at the table of factors;
    it returns exactly for the integers below [2^1024 - 2^970] in absolute
    value, with terabytes, gigabytes or megabytes as the unit, and raises
    [OverflowError] for the others. *)
Theorem to_readable_auto_outcome (table table' : Units -> option float) (n : Z) :
  to_readable table n AUTO = to_readable table' n AUTO /\
  match to_readable table n AUTO with
  | Ok (units_used, _) =>
      Z.abs n < 2 ^ 1024 - 2 ^ 970 /\
      (units_used = TERABYTES \/ units_used = GIGABYTES \/ units_used = MEGABYTES)
  | Raise e => 2 ^ 1024 - 2 ^ 970 <= Z.abs n /\ e = OverflowError
  end.
Proof.
  split; [reflexivity|].
  unfold to_readable. cbn [Units_eqb]. rewrite !truediv_cases.
  fold float_limit.
  destruct (Z.leb_spec float_limit (Z.abs n)) as [H|H];
    destruct (int_ge_float n f1e12), (int_ge_float n f1e9); cbn; auto.
Qed.

(** X10.  With an explicit unit, [to_readable] raises [KeyError] when the
    table has no factor for the unit, whatever the number; otherwise
    [OverflowError] when the number is beyond the floats; otherwise
    [ZeroDivisionError] when the factor is zero; otherwise it returns the
    unit with the quotient. *)
Theorem to_readable_explicit_outcome (table : Units -> option float) (n : Z)
    (units : Units) :
  units <> AUTO ->
  to_readable table n units
  = match table units with
    | None => Raise KeyError
    | Some f =>
        if 2 ^ 1024 - 2 ^ 970 <=? Z.abs n then Raise OverflowError
        else if float_is_zero f then Raise ZeroDivisionError
        else Ok (units, SFdiv prec emax (float_of_int n) f)
    end.
Proof.
  intros Hu. unfold to_readable.
  assert (Hne : Units_eqb units AUTO = false)
    by (destruct units; try reflexivity; contradiction).
  rewrite Hne. unfold getitem.
  destruct (table units) as [f|]; [|reflexivity].
  cbn [bind]. rewrite truediv_cases. fold float_limit.
  destruct (float_limit <=? Z.abs n); [reflexivity|].
  destruct (float_is_zero f); reflexivity.
Qed.

(** X11.  [format_output_num] fails exactly as [to_readable] does: it
    raises the exception [to_readable] raises and returns a text whenever
    [to_readable] returns, the conversion [int(converted_num)] never
    raising. *)
Theorem format_output_num_outcome (table : Units -> option float)
    (label : Units -> string) (num : Z) (units : Units) :
  match to_readable table num units with
  | Ok _ => exists text, format_output_num table label num units = Ok text
  | Raise e => format_output_num table label num units = Raise e
  end.
Proof.
  unfold format_output_num.
  destruct (to_readable table num units) as [[units_used x]|e]; [|reflexivity].
  cbn [bind]. destruct (is_integer x) eqn:Hint.
  - destruct (is_integer_int_of_float x Hint) as [z ->]. cbn. eauto.
  - cbn. eauto.
Qed.

(** X12.  [to_megabytes] returns the quotient by [1e6] for the integers
    below [2^1024 - 2^970] in absolute value and raises [OverflowError] for
    the others. *)
Theorem to_megabytes_outcome (num : Z) :
  to_megabytes num
  = if Z.abs num <? 2 ^ 1024 - 2 ^ 970
    then Ok (SFdiv prec emax (float_of_int num) f1e6)
    else Raise OverflowError.
Proof.
  unfold to_megabytes. rewrite truediv_cases. fold float_limit.
  rewrite Z.ltb_antisym. destruct (float_limit <=? Z.abs num); reflexivity.
Qed.

(** X13.  [float_to_megabytes] multiplies by four before it converts: it
    returns only for the integers below [2^1022 - 2^968] in absolute value,
    a quarter of the range of [to_megabytes], and raises [OverflowError] for
    the others. *)
Theorem float_to_megabytes_outcome (num : Z) :
  float_to_megabytes num
  = if Z.abs num <? 2 ^ 1022 - 2 ^ 968
    then Ok (SFdiv prec emax (float_of_int (num * 4)) f1e6)
    else Raise OverflowError.
Proof.
  unfold float_to_megabytes. rewrite truediv_cases. unfold float_limit.
  change (2 ^ 1024) with (4 * 2 ^ 1022). change (2 ^ 970) with (4 * 2 ^ 968).
  destruct (Z.leb_spec (4 * 2 ^ 1022 - 4 * 2 ^ 968) (Z.abs (num * 4))) as [H|H];
    destruct (Z.ltb_spec (Z.abs num) (2 ^ 1022 - 2 ^ 968)) as [H'|H'];
    try reflexivity; exfalso; lia.
Qed.

(** ** The text of the report *)

Lemma count_char_append (c : ascii) (s t : string) :
  count_char c (s ++ t) = (count_char c s + count_char c t)%nat.
Proof.
  induction s as [|a s IH]; cbn; [reflexivity|]. rewrite IH. lia.
Qed.

Lemma count_char_concat (c : ascii) (lines : list string) :
  count_char c (String.concat "" lines)
  = fold_right Nat.add 0%nat (map (count_char c) lines).
Proof.
  induction lines as [|l lines IH]; [reflexivity|].
  destruct lines as [|l' lines].
  - cbn. lia.
  - change (String.concat "" (l :: l' :: lines))
      with (l ++ "" ++ String.concat "" (l' :: lines))%string.
    rewrite !count_char_append, IH. cbn. reflexivity.
Qed.

Lemma sum_of_ones {A : Type} (f : A -> nat) (l : list A) :
  Forall (fun x => f x = 1%nat) l ->
  fold_right Nat.add 0%nat (map f l) = List.length l.
Proof.
  induction 1 as [|x l Hx _ IH]; cbn; [reflexivity|]. rewrite Hx, IH. reflexivity.
Qed.


Lemma added_nonneg {Energy : Type} (layers : list (LayerInfo.t Energy)) :
  0 <= Zsum (map params_added layers) /\ 0 <= Zsum (map trainable_added layers).
Proof.
  split; apply Zsum_nonneg, Forall_map, Forall_forall; intros x _.
  - unfold params_added.
    destruct (LayerInfo.is_recursive x), (LayerInfo.is_leaf_layer x); lia.
  - unfold trainable_added.
    destruct (LayerInfo.is_recursive x), (LayerInfo.is_leaf_layer x); lia.
Qed.

Section ReportText.
Variables InputSize DeviceProfile Energy FormattingOptions : Type.
Variable set_layer_name_width :
  FormattingOptions -> list (LayerInfo.t Energy) -> FormattingOptions.
Variable get_total_width : FormattingOptions -> Z.
Variable header_row : FormattingOptions -> string.
Variable layers_to_str : FormattingOptions -> list (LayerInfo.t Energy) -> Z -> string.
Variable params_units : FormattingOptions -> Units.
Variable str_DeviceProfile : DeviceProfile -> string.
Variable format_Energy : Energy -> string.
Variable CONVERSION_FACTORS : Units -> option float.
Variable format_Units : Units -> string.



(** X15.  When no device string and no energy text contains a line end,
    the energy part of the report has exactly as many line ends as the
    shorter of [device_profiles] and [total_energies] has entries. *)
Theorem energy_block_line_count
    (self : ModelStatistics InputSize DeviceProfile Energy FormattingOptions) :
  Forall (fun dp => count_newlines (str_DeviceProfile dp) = 0%nat) (device_profiles self) ->
  Forall (fun e => count_newlines (format_Energy e) = 0%nat) (total_energies self) ->
  count_newlines
    (String.concat "" (total_energy_strings str_DeviceProfile format_Energy self))
  = Nat.min (List.length (device_profiles self)) (List.length (total_energies self)).
Proof.
  intros Hd He. unfold count_newlines in *. rewrite count_char_concat.
  unfold total_energy_strings. rewrite map_map.
  rewrite sum_of_ones; [apply length_combine|].
  apply Forall_forall. intros [dp e] Hin.
  pose proof (in_combine_l _ _ _ _ Hin) as Hdp.
  pose proof (in_combine_r _ _ _ _ Hin) as Hen.
  rewrite Forall_forall in Hd, He.
  unfold energy_line. cbn [fst snd].
  rewrite !count_char_append, (Hd dp Hdp), (He e Hen). reflexivity.
Qed.
End ReportText.

(** ** Quotients are finite *)

Lemma Zdigits2_nonneg (m : Z) : 0 <= Zdigits2 m.
Proof. destruct m; cbn; lia. Qed.

(** A non-negative number below [2^d] has at most [d] digits. *)
Lemma Zdigits2_le (m d : Z) : 0 <= m < 2 ^ d -> 0 <= d -> Zdigits2 m <= d.
Proof.
  intros [Hlo Hhi] Hd. destruct m as [|p|p]; cbn; try lia.
  destruct (digits2_bounds p) as [Blo _].
  assert (Z.pos (digits2_pos p) - 1 < d); [|lia].
  apply (Z.pow_lt_mono_r_iff 2); lia.
Qed.

Lemma Zdigits2_gt (m : Z) : 0 <= m -> m < 2 ^ Zdigits2 m.
Proof.
  intros Hm. destruct m as [|p|p]; cbn [Zdigits2].
  - reflexivity.
  - apply digits2_bounds.
  - lia.
Qed.

Lemma Zdigits2_div_pow2 (m k : Z) :
  0 <= m -> 0 < k -> Zdigits2 (m / 2 ^ k) <= Z.max (Zdigits2 m - k) 0.
Proof.
  intros Hm Hk.
  pose proof (Zdigits2_gt m Hm) as Hgt.
  pose proof (Zdigits2_nonneg m) as Hn.
  destruct (Z_lt_le_dec (Zdigits2 m) k) as [Hs|Hs].
  - assert (m / 2 ^ k = 0) as ->.
    { apply Z.div_small. split; [lia|].
      apply Z.lt_le_trans with (2 ^ Zdigits2 m); [exact Hgt|].
      apply Z.pow_le_mono_r; lia. }
    cbn. lia.
  - rewrite Z.max_l by lia. apply Zdigits2_le; [|lia].
    split; [apply Z.div_pos; lia|].
    apply Z.div_lt_upper_bound; [lia|].
    rewrite <- Z.pow_add_r by lia.
    replace (k + (Zdigits2 m - k)) with (Zdigits2 m) by lia. exact Hgt.
Qed.

Lemma Zdigits2_succ (m m' : Z) : 0 <= m -> 0 <= m' <= m + 1 -> Zdigits2 m' <= Zdigits2 m + 1.
Proof.
  intros Hm Hm'. pose proof (Zdigits2_gt m Hm). pose proof (Zdigits2_nonneg m).
  apply Zdigits2_le; [|lia]. rewrite Z.pow_add_r by lia. change (2 ^ 1) with 2. lia.
Qed.

Lemma shr_iter_m (m : Z) (r s : bool) (k : positive) :
  0 <= m ->
  shr_m (Pos.iter shr_1 (Build_shr_record m r s) k) = m / 2 ^ Zpos k.
Proof.
  intros Hm.
  apply (Pos.iter_ind _ shr_1 (Build_shr_record m r s)
    (fun p a => shr_m a = m / 2 ^ Zpos p)).
  - rewrite shr_1_nonneg by lia. reflexivity.
  - intros p [m' r' s'] H1. cbn [shr_m] in *.
    assert (0 <= m') by (subst m'; apply Z.div_pos; lia).
    rewrite shr_1_nonneg by lia. cbn [shr_m].
    rewrite Pos2Z.inj_succ, Z.pow_succ_r by lia. subst m'.
    rewrite Z.div_div by lia. rewrite (Z.mul_comm 2). reflexivity.
Qed.

Lemma fexp_mono (a b : Z) : a <= b -> fexp 53 1024 a <= fexp 53 1024 b.
Proof. unfold fexp, emin. lia. Qed.

Lemma fexp_le (a : Z) : a <= 1024 -> fexp 53 1024 a <= 971.
Proof. unfold fexp, emin. lia. Qed.

(** What one alignment step gives. *)
Lemma shr_fexp_bounds (m e : Z) (l : location) :
  0 <= m ->
  let out := shr_fexp 53 1024 m e l in
  0 <= shr_m (fst out) /\
  snd out = Z.max e (fexp 53 1024 (Zdigits2 m + e)) /\
  Zdigits2 (shr_m (fst out)) + snd out <= Z.max (Zdigits2 m + e) (snd out) /\
  fexp 53 1024 (Zdigits2 (shr_m (fst out)) + snd out) <= snd out.
Proof.
  intros Hm. unfold shr_fexp.
  set (t := fexp 53 1024 (Zdigits2 m + e)).
  assert (Hrec : shr_m (shr_record_of_loc m l) = m).
  { destruct l as [|[| |]]; reflexivity. }
  unfold shr. destruct (t - e) as [|k|k] eqn:Ek.
  - cbn [fst snd]. rewrite Hrec. repeat split; fold t; lia.
  - cbn [fst snd]. rewrite iter_pos_iter.
    destruct (shr_record_of_loc m l) as [m0 r0 s0] eqn:Er. cbn [shr_m] in Hrec. subst m0.
    rewrite shr_iter_m by lia.
    pose proof (Zdigits2_div_pow2 m (Zpos k) Hm ltac:(lia)) as Hd.
    pose proof (Zdigits2_nonneg (m / 2 ^ Zpos k)) as Hn.
    assert (He : e + Zpos k = t) by lia.
    repeat split.
    + apply Z.div_pos; lia.
    + lia.
    + lia.
    + rewrite He. unfold t at 2.
      destruct (Z_lt_le_dec (Zdigits2 m) (Zpos k)).
      * unfold t, fexp, emin in *. lia.
      * apply fexp_mono. lia.
  - cbn [fst snd]. rewrite Hrec. repeat split; fold t; lia.
Qed.

(** The results of rounding: never a NaN, the sign kept, a finite result
    within the format; no infinity when the input is small enough. *)
Lemma binary_round_aux_result (s : bool) (mx ex : Z) (lx : location) :
  0 <= mx ->
  (binary_round_aux 53 1024 s mx ex lx = S754_zero s \/
   binary_round_aux 53 1024 s mx ex lx = S754_infinity s \/
   exists m e, binary_round_aux 53 1024 s mx ex lx = S754_finite s m e /\
               Zpos (digits2_pos m) + e <= 1024) /\
  (ex <= 971 -> Zdigits2 mx + ex <= 1023 ->
   binary_round_aux 53 1024 s mx ex lx <> S754_infinity s).
Proof.
  intros Hmx. unfold binary_round_aux.
  pose proof (shr_fexp_bounds mx ex lx Hmx) as H1. cbv zeta in H1.
  destruct (shr_fexp 53 1024 mx ex lx) as [mrs1 e1]. cbn [fst snd] in H1.
  destruct H1 as (Hm1 & He1 & Hd1 & _).
  destruct (round_nearest_even_bounds (shr_m mrs1) mrs1) as [Hr _].
  set (m2 := round_nearest_even (shr_m mrs1) (loc_of_shr_record mrs1)) in *.
  assert (Hm2 : 0 <= m2) by lia.
  pose proof (shr_fexp_bounds m2 e1 loc_Exact Hm2) as H2. cbv zeta in H2.
  destruct (shr_fexp 53 1024 m2 e1 loc_Exact) as [mrs2 e2]. cbn [fst snd] in H2.
  destruct H2 as (Hm3 & He2 & Hd2 & Hf2).
  pose proof (Zdigits2_succ (shr_m mrs1) m2 Hm1 ltac:(lia)) as Hs.
  destruct (shr_m mrs2) as [|m|m] eqn:Em; [| |lia].
  - split; [auto|discriminate].
  - cbn [Zdigits2] in Hd2, Hf2.
    destruct (Z.leb_spec e2 (1024 - 53)) as [Hle|Hgt].
    + split; [|discriminate].
      right. right. exists m, e2. split; [reflexivity|].
      unfold fexp, emin in Hf2. lia.
    + split; [auto|].
      intros Hex Hdx. exfalso.
      unfold fexp, emin in *. lia.
Qed.

(** The quotient of a float by a float of magnitude two or more is a zero
    or a finite float, with the sign of the operands' signs. *)
Lemma SFdiv_finite_result (s1 s2 : bool) (m1 m2 : positive) (e1 e2 : Z) :
  Zpos (digits2_pos m1) + e1 <= 1024 ->
  2 <= Zpos (digits2_pos m2) + e2 ->
  SFdiv 53 1024 (S754_finite s1 m1 e1) (S754_finite s2 m2 e2) = S754_zero (xorb s1 s2) \/
  exists m e,
    SFdiv 53 1024 (S754_finite s1 m1 e1) (S754_finite s2 m2 e2)
    = S754_finite (xorb s1 s2) m e.
Proof.
  intros H1 H2. unfold SFdiv, SFdiv_core_binary. cbn [Zdigits2].
  set (d1 := Zpos (digits2_pos m1)) in *. set (d2 := Zpos (digits2_pos m2)) in *.
  set (e' := Z.min (fexp 53 1024 (d1 + e1 - (d2 + e2))) (e1 - e2)).
  set (s := e1 - e2 - e').
  set (m' := match s with
             | Z0 => Zpos m1
             | Zpos _ => Z.shiftl (Zpos m1) s
             | Zneg _ => 0
             end).
  destruct (digits2_bounds m1) as [_ B1]. fold d1 in B1.
  destruct (digits2_bounds m2) as [B2 _]. fold d2 in B2.
  assert (Hs : 0 <= s) by (unfold s, e'; lia).
  assert (Hm' : m' = Zpos m1 * 2 ^ s).
  { unfold m'. destruct s as [|p|p] eqn:Es; [cbn; lia| |lia].
    apply Z.shiftl_mul_pow2. lia. }
  assert (Hm'0 : 0 <= m') by (rewrite Hm'; apply Z.mul_nonneg_nonneg; lia).
  assert (Hm'hi : m' < 2 ^ (d1 + s)).
  { rewrite Hm', Z.pow_add_r by lia.
    apply Z.mul_lt_mono_pos_r; [apply Z.pow_pos_nonneg; lia|exact B1]. }
  assert (Hd1 : 0 < d1) by (unfold d1; lia).
  assert (Hd2 : 0 < d2) by (unfold d2; lia).
  destruct (Z.div_eucl m' (Zpos m2)) as [q r] eqn:Ediv.
  assert (Hq : q = m' / Zpos m2) by (unfold Z.div; rewrite Ediv; reflexivity).
  assert (Hq0 : 0 <= q) by (rewrite Hq; apply Z.div_pos; lia).
  assert (Hqd : Zdigits2 q <= Z.max (d1 + s - d2 + 1) 0).
  { destruct (Z_lt_le_dec (d1 + s - d2 + 1) 0) as [Hneg|Hpos].
    - assert (q = 0) as ->.
      { rewrite Hq. apply Z.div_small. split; [lia|].
        apply Z.lt_le_trans with (2 ^ (d1 + s)); [exact Hm'hi|].
        apply Z.le_trans with (2 ^ (d2 - 1)); [|exact B2].
        apply Z.pow_le_mono_r; lia. }
      cbn. lia.
    - rewrite Z.max_l by lia. apply Zdigits2_le; [|lia].
      split; [exact Hq0|]. rewrite Hq.
      apply Z.div_lt_upper_bound; [lia|].
      apply Z.lt_le_trans with (2 ^ (d1 + s)); [exact Hm'hi|].
      assert (Hsplit : 2 ^ (d1 + s) = 2 ^ (d2 - 1) * 2 ^ (d1 + s - d2 + 1)).
      { rewrite <- Z.pow_add_r by lia. f_equal. lia. }
      rewrite Hsplit.
      apply Z.mul_le_mono_nonneg_r; [apply Z.pow_nonneg; lia|exact B2]. }
  assert (He' : e' <= 971).
  { unfold e'. pose proof (fexp_le (d1 + e1 - (d2 + e2)) ltac:(lia)). lia. }
  destruct (binary_round_aux_result (xorb s1 s2) q e' (new_location (Zpos m2) r) Hq0)
    as [Hcases Hfin].
  assert (Hne : binary_round_aux 53 1024 (xorb s1 s2) q e' (new_location (Zpos m2) r)
                <> S754_infinity (xorb s1 s2)).
  { apply Hfin; [exact He'|]. unfold s in Hqd. lia. }
  destruct Hcases as [Hz|[Hi|(m & e & Hf & _)]]; [auto|contradiction|eauto].
Qed.

(** The float nearest to an integer is a zero, an infinity or a finite
    float within the format. *)
Lemma float_of_int_result (n : Z) :
  (exists s, float_of_int n = S754_zero s) \/
  (exists s, float_of_int n = S754_infinity s) \/
  exists s m e, float_of_int n = S754_finite s m e /\ Zpos (digits2_pos m) + e <= 1024.
Proof.
  unfold float_of_int, binary_normalize, prec, emax.
  destruct n as [|p|p]; [eauto| |]; unfold binary_round;
    destruct (shl_align p 0 _) as [mz ez];
    match goal with |- context [binary_round_aux 53 1024 ?s ?m ?e ?l] =>
      destruct (binary_round_aux_result s m e l ltac:(lia))
        as [[Hz|[Hi|(m' & e' & Hf & Hb)]] _]
    end;
    rewrite ?Hz, ?Hi, ?Hf; eauto 8.
Qed.

(** Within the range of the floats, the quotient of an integer by a float
    of magnitude two or more is returned, and is a zero or a finite float. *)
Lemma truediv_finite (n : Z) (s2 : bool) (m2 : positive) (e2 : Z) :
  Z.abs n < float_limit ->
  2 <= Zpos (digits2_pos m2) + e2 ->
  exists x, truediv n (S754_finite s2 m2 e2) = Ok x /\ is_finite x = true.
Proof.
  intros Hn Hd. unfold truediv.
  pose proof (int_to_float_in_range n Hn) as Ha. rewrite Ha. cbn [bind float_is_zero].
  eexists. split; [reflexivity|].
  destruct (float_of_int_result n) as [[s Hz]|[[s Hi]|(s & m & e & Hf & Hb)]].
  - rewrite Hz. reflexivity.
  - unfold int_to_float in Ha. rewrite Hi in Ha. discriminate.
  - rewrite Hf. unfold prec, emax.
    destruct (SFdiv_finite_result s s2 m m2 e e2 Hb Hd) as [->|(m' & e' & ->)];
      reflexivity.
Qed.

Lemma to_readable_auto_finite (table : Units -> option float) (n : Z) :
  Z.abs n < float_limit ->
  exists units_used x,
    to_readable table n AUTO = Ok (units_used, x) /\
    (units_used = TERABYTES \/ units_used = GIGABYTES \/ units_used = MEGABYTES) /\
    is_finite x = true.
Proof.
  intros Hn. unfold to_readable. cbn [Units_eqb].
  destruct (int_ge_float n f1e12); [|destruct (int_ge_float n f1e9)].
  - destruct (truediv_finite n false 8192000000000000 (-13) Hn ltac:(cbn; lia))
      as (x & Hx & Hfin).
    change (S754_finite false 8192000000000000 (-13)) with f1e12 in Hx.
    rewrite Hx. cbn [bind]. eauto 8.
  - destruct (truediv_finite n false 8388608000000000 (-23) Hn ltac:(cbn; lia))
      as (x & Hx & Hfin).
    change (S754_finite false 8388608000000000 (-23)) with f1e9 in Hx.
    rewrite Hx. cbn [bind]. eauto 8.
  - destruct (truediv_finite n false 8589934592000000 (-33) Hn ltac:(cbn; lia))
      as (x & Hx & Hfin).
    change (S754_finite false 8589934592000000 (-33)) with f1e6 in Hx.
    rewrite Hx. cbn [bind]. eauto 8.
Qed.

Lemma string_append_assoc (a b c : string) :
  ((a ++ b) ++ c = a ++ (b ++ c))%string.
Proof.
  induction a as [|ch a IH]; cbn; [reflexivity|]. rewrite IH. reflexivity.
Qed.

(** X16.  For an integer within the range of the floats, [to_readable]
    with AUTO, or with an explicit unit whose factor is a finite float of
    magnitude two or more, returns a zero or a finite float: never an
    infinity, never a NaN. *)
Theorem to_readable_finite (table : Units -> option float) (n : Z) (units : Units) :
  Z.abs n < 2 ^ 1024 - 2 ^ 970 ->
  units = AUTO \/
  (exists s m e, table units = Some (S754_finite s m e) /\
                 2 <= Zpos (digits2_pos m) + e) ->
  exists units_used x,
    to_readable table n units = Ok (units_used, x) /\ is_finite x = true.
Proof.
  intros Hn [->|(s & m & e & Hf & Hd)].
  - destruct (to_readable_auto_finite table n Hn) as (u & x & Hr & _ & Hfin). eauto.
  - destruct (Units_eqb units AUTO) eqn:Hu.
    + assert (units = AUTO) as -> by (destruct units; try discriminate; reflexivity).
      destruct (to_readable_auto_finite table n Hn) as (u & x & Hr & _ & Hfin). eauto.
    + unfold to_readable. rewrite Hu. unfold getitem. rewrite Hf. cbn [bind].
      destruct (truediv_finite n s m e Hn Hd) as (x & -> & Hfin).
      cbn [bind]. eauto.
Qed.

(** X17.  [to_megabytes] and [float_to_megabytes] never return an infinity
    or a NaN: each returns a zero or a finite float, or raises
    [OverflowError]. *)
Theorem megabytes_finite (num : Z) :
  match to_megabytes num with
  | Ok x => is_finite x = true
  | Raise e => e = OverflowError
  end /\
  match float_to_megabytes num with
  | Ok x => is_finite x = true
  | Raise e => e = OverflowError
  end.
Proof.
  assert (H : forall n,
    match truediv n f1e6 with
    | Ok x => is_finite x = true
    | Raise e => e = OverflowError
    end).
  { intros n. destruct (Z_lt_le_dec (Z.abs n) float_limit) as [Hn|Hn].
    - destruct (truediv_finite n false 8589934592000000 (-33) Hn ltac:(cbn; lia))
        as (x & Hx & Hfin).
      change (S754_finite false 8589934592000000 (-33)) with f1e6 in Hx.
      rewrite Hx. exact Hfin.
    - rewrite (truediv_overflow n f1e6 (int_to_float_overflow n Hn)). reflexivity. }
  split; [apply (H num)|apply (H (num * 4))].
Qed.

(** X18.  With AUTO, every integer within the range of the floats is
    formatted: the text is the label of terabytes, gigabytes or megabytes
    in parentheses, a colon, and a number that is an integer text (digits,
    commas, a sign) or a text with exactly two decimals. *)
Theorem format_output_num_auto_text (table : Units -> option float)
    (label : Units -> string) (n : Z) :
  Z.abs n < 2 ^ 1024 - 2 ^ 970 ->
  exists (units_used : Units) (number : string),
    format_output_num table label n AUTO
    = Ok (" (" ++ label units_used ++ ")" ++ ": " ++ number)%string /\
    (units_used = TERABYTES \/ units_used = GIGABYTES \/ units_used = MEGABYTES) /\
    (integer_text number \/ two_decimals number).
Proof.
  intros Hn.
  destruct (to_readable_auto_finite table n Hn) as (u & x & Hr & Hu & Hfin).
  unfold format_output_num. rewrite Hr. cbn [bind].
  assert (Hdisp : units_display label u = (" (" ++ label u ++ ")")%string).
  { unfold units_display. destruct Hu as [->|[->| ->]]; reflexivity. }
  rewrite Hdisp.
  destruct (is_integer x) eqn:Hint.
  - destruct (is_integer_int_of_float x Hint) as [z ->]. cbn [bind format_number].
    exists u, (format_comma_d z). split; [|split; [exact Hu|left; apply format_comma_d_integer]].
    rewrite !string_append_assoc. reflexivity.
  - cbn [bind format_number].
    exists u, (format_comma_2f x). split; [|split; [exact Hu|right]].
    + rewrite !string_append_assoc. reflexivity.
    + pose proof (format_comma_2f_two_decimals x) as H2.
      destruct x; try discriminate; exact H2.
Qed.

(** X19.  With AUTO the unit grows with the number: when the larger of two
    integers resolves to megabytes so does the smaller, and when the smaller
    resolves to terabytes so does the larger. *)
Theorem to_readable_auto_monotone (table : Units -> option float) (n n' : Z)
    (u u' : Units) (x x' : float) :
  n <= n' ->
  to_readable table n AUTO = Ok (u, x) ->
  to_readable table n' AUTO = Ok (u', x') ->
  (u' = MEGABYTES -> u = MEGABYTES) /\ (u = TERABYTES -> u' = TERABYTES) /\
  (u = GIGABYTES -> u' <> MEGABYTES).
Proof.
  intros Hle. unfold to_readable. cbn [Units_eqb].
  rewrite !int_ge_float_1e12, !int_ge_float_1e9.
  destruct (Z.leb_spec (10 ^ 12) n), (Z.leb_spec (10 ^ 9) n),
           (Z.leb_spec (10 ^ 12) n'), (Z.leb_spec (10 ^ 9) n'); try lia;
    destruct (truediv n _); try discriminate;
    destruct (truediv n' _); try discriminate;
    cbn [bind]; intros [= <- <-] [= <- <-];
    repeat split; congruence.
Qed.

(** ** Further examples *)

Lemma trainable_at_most_total_witness :
  Forall (fun l : LayerInfo.t Z =>
            if LayerInfo.is_leaf_layer l
            then LayerInfo.trainable_params l <= LayerInfo.num_params l
            else LayerInfo.leftover_trainable_params l <= LayerInfo.leftover_params l)
    [Example.leaf false 10 5 100 16 40 [3]; Example.container false 20 4 2] /\
  match Example.init
          [Example.leaf false 10 5 100 16 40 [3]; Example.container false 20 4 2] [] with
  | Ok self => trainable_params self <= total_params self
  | Raise _ =>
      [Example.leaf false 10 5 100 16 40 [3]; Example.container false 20 4 2] = []
  end.
Proof.
  assert (H : Forall (fun l : LayerInfo.t Z =>
            if LayerInfo.is_leaf_layer l
            then LayerInfo.trainable_params l <= LayerInfo.num_params l
            else LayerInfo.leftover_trainable_params l <= LayerInfo.leftover_params l)
    [Example.leaf false 10 5 100 16 40 [3]; Example.container false 20 4 2]).
  { constructor; [cbn; lia|]. constructor; [cbn; lia|constructor]. }
  split; [exact H|].
  exact (trainable_at_most_total unit string Z Example.Formatting
           Example.set_layer_name_width _ tt 0 Example.formatting0 [] H).
Defined.

Lemma counters_order_independent_witness :
  Permutation
    [Example.leaf false 10 5 100 16 40 [3]; Example.container false 20 4 2]
    [Example.container false 20 4 2; Example.leaf false 10 5 100 16 40 [3]] /\
  match Example.init
          [Example.leaf false 10 5 100 16 40 [3]; Example.container false 20 4 2] [],
        Example.init
          [Example.container false 20 4 2; Example.leaf false 10 5 100 16 40 [3]] [] with
  | Ok self, Ok self' =>
      total_mult_adds self = total_mult_adds self' /\
      total_params self = total_params self' /\
      trainable_params self = trainable_params self' /\
      total_param_bytes self = total_param_bytes self' /\
      total_output_bytes self = total_output_bytes self'
  | Raise e, Raise e' => e = e'
  | _, _ => False
  end.
Proof.
  assert (H : Permutation
    [Example.leaf false 10 5 100 16 40 [3]; Example.container false 20 4 2]
    [Example.container false 20 4 2; Example.leaf false 10 5 100 16 40 [3]])
    by apply perm_swap.
  split; [exact H|].
  exact (counters_order_independent unit string Z Example.Formatting
           Example.set_layer_name_width _ _ tt 0 Example.formatting0 [] H).
Defined.

(** The kilobyte factor divides even what AUTO would give in gigabytes. *)
Lemma to_readable_explicit_outcome_witness :
  KILOBYTES <> AUTO /\
  to_readable Example.CONVERSION_FACTORS 5000000000 KILOBYTES
  = Ok (KILOBYTES, SFdiv prec emax (float_of_int 5000000000) (float_of_int 1000)).
Proof.
  assert (H : KILOBYTES <> AUTO) by discriminate.
  split; [exact H|].
  exact (to_readable_explicit_outcome Example.CONVERSION_FACTORS 5000000000 KILOBYTES H).
Defined.


(** Three profiles against two energies: two line ends. *)
Lemma energy_block_line_count_witness :
  count_newlines
    (String.concat ""
       (total_energy_strings Example.str_DeviceProfile Example.format_Energy
          (mkModelStatistics [] tt Example.formatting0 0 0 10 5 40 32 0
             ["cpu"%string; "gpu"%string; "tpu"%string] [3; 4])))
  = 2%nat.
Proof.
  refine (energy_block_line_count unit string Z Example.Formatting
            Example.str_DeviceProfile Example.format_Energy
            (mkModelStatistics [] tt Example.formatting0 0 0 10 5 40 32 0
               ["cpu"%string; "gpu"%string; "tpu"%string] [3; 4]) _ _).
  - repeat constructor.
  - repeat constructor.
Defined.

Lemma to_readable_finite_witness :
  Z.abs 1234500000 < 2 ^ 1024 - 2 ^ 970 /\
  exists units_used x,
    to_readable Example.CONVERSION_FACTORS 1234500000 MEGABYTES = Ok (units_used, x) /\
    is_finite x = true.
Proof.
  assert (Hn : Z.abs 1234500000 < 2 ^ 1024 - 2 ^ 970) by (vm_compute; reflexivity).
  split; [exact Hn|].
  refine (to_readable_finite Example.CONVERSION_FACTORS 1234500000 MEGABYTES Hn _).
  right. exists false, 8589934592000000%positive, (-33). split; [reflexivity|].
  vm_compute. discriminate.
Defined.

Lemma format_output_num_auto_text_witness :
  Z.abs 12340000000 < 2 ^ 1024 - 2 ^ 970 /\
  exists (units_used : Units) (number : string),
    format_output_num Example.CONVERSION_FACTORS Example.format_Units 12340000000 AUTO
    = Ok (" (" ++ Example.format_Units units_used ++ ")" ++ ": " ++ number)%string /\
    (units_used = TERABYTES \/ units_used = GIGABYTES \/ units_used = MEGABYTES) /\
    (integer_text number \/ two_decimals number).
Proof.
  assert (Hn : Z.abs 12340000000 < 2 ^ 1024 - 2 ^ 970) by (vm_compute; reflexivity).
  split; [exact Hn|].
  exact (format_output_num_auto_text Example.CONVERSION_FACTORS Example.format_Units
           12340000000 Hn).
Defined.

(** Five and seven bytes both resolve to megabytes; a gigabyte count
    followed by a terabyte count does not fall back to megabytes; two
    terabyte counts both resolve to terabytes. *)
Lemma to_readable_auto_monotone_witness :
  (5 <= 7 /\
   to_readable Example.CONVERSION_FACTORS 5 AUTO
   = Ok (MEGABYTES, SFdiv prec emax (float_of_int 5) f1e6) /\
   to_readable Example.CONVERSION_FACTORS 7 AUTO
   = Ok (MEGABYTES, SFdiv prec emax (float_of_int 7) f1e6) /\
   MEGABYTES = MEGABYTES) /\
  (10 ^ 9 <= 2 * 10 ^ 12 /\
   to_readable Example.CONVERSION_FACTORS (10 ^ 9) AUTO
   = Ok (GIGABYTES, SFdiv prec emax (float_of_int (10 ^ 9)) f1e9) /\
   to_readable Example.CONVERSION_FACTORS (2 * 10 ^ 12) AUTO
   = Ok (TERABYTES, SFdiv prec emax (float_of_int (2 * 10 ^ 12)) f1e12) /\
   TERABYTES <> MEGABYTES) /\
  (2 * 10 ^ 12 <= 3 * 10 ^ 12 /\
   to_readable Example.CONVERSION_FACTORS (2 * 10 ^ 12) AUTO
   = Ok (TERABYTES, SFdiv prec emax (float_of_int (2 * 10 ^ 12)) f1e12) /\
   to_readable Example.CONVERSION_FACTORS (3 * 10 ^ 12) AUTO
   = Ok (TERABYTES, SFdiv prec emax (float_of_int (3 * 10 ^ 12)) f1e12) /\
   TERABYTES = TERABYTES).
Proof.
  assert (L1 : 5 <= 7) by (vm_compute; discriminate).
  assert (A1 : to_readable Example.CONVERSION_FACTORS 5 AUTO
               = Ok (MEGABYTES, SFdiv prec emax (float_of_int 5) f1e6))
    by (vm_compute; reflexivity).
  assert (B1 : to_readable Example.CONVERSION_FACTORS 7 AUTO
               = Ok (MEGABYTES, SFdiv prec emax (float_of_int 7) f1e6))
    by (vm_compute; reflexivity).
  assert (L2 : 10 ^ 9 <= 2 * 10 ^ 12) by (vm_compute; discriminate).
  assert (A2 : to_readable Example.CONVERSION_FACTORS (10 ^ 9) AUTO
               = Ok (GIGABYTES, SFdiv prec emax (float_of_int (10 ^ 9)) f1e9))
    by (vm_compute; reflexivity).
  assert (B2 : to_readable Example.CONVERSION_FACTORS (2 * 10 ^ 12) AUTO
               = Ok (TERABYTES, SFdiv prec emax (float_of_int (2 * 10 ^ 12)) f1e12))
    by (vm_compute; reflexivity).
  assert (L3 : 2 * 10 ^ 12 <= 3 * 10 ^ 12) by (vm_compute; discriminate).
  assert (B3 : to_readable Example.CONVERSION_FACTORS (3 * 10 ^ 12) AUTO
               = Ok (TERABYTES, SFdiv prec emax (float_of_int (3 * 10 ^ 12)) f1e12))
    by (vm_compute; reflexivity).
  split; [|split].
  - split; [exact L1|]. split; [exact A1|]. split; [exact B1|].
    exact (proj1 (to_readable_auto_monotone Example.CONVERSION_FACTORS 5 7
                    MEGABYTES MEGABYTES _ _ L1 A1 B1) eq_refl).
  - split; [exact L2|]. split; [exact A2|]. split; [exact B2|].
    exact (proj2 (proj2 (to_readable_auto_monotone Example.CONVERSION_FACTORS
                           (10 ^ 9) (2 * 10 ^ 12) GIGABYTES TERABYTES _ _ L2 A2 B2))
             eq_refl).
  - split; [exact L3|]. split; [exact B2|]. split; [exact B3|].
    exact (proj1 (proj2 (to_readable_auto_monotone Example.CONVERSION_FACTORS
                           (2 * 10 ^ 12) (3 * 10 ^ 12) TERABYTES TERABYTES _ _ L3 B2 B3))
             eq_refl).
Defined.

(** ** More on the counters *)

Lemma Zsum_even (l : list Z) : Forall (fun x => Z.even x = true) l -> Z.even (Zsum l) = true.
Proof.
  unfold Zsum. induction 1 as [|x l Hx _ IH]; cbn [fold_right]; [reflexivity|].
  rewrite Z.even_add, Hx, IH. reflexivity.
Qed.

Section Counters.
Variables InputSize DeviceProfile Energy FormattingOptions : Type.
Variable set_layer_name_width :
  FormattingOptions -> list (LayerInfo.t Energy) -> FormattingOptions.

(** X20.  Each leaf adds twice its [output_bytes] or nothing, so
    [total_output_bytes] is even in every object built. *)
Theorem total_output_bytes_even (layers : list (LayerInfo.t Energy)) (isz : InputSize)
    (total_input_size : Z) (fmt : FormattingOptions) (dps : list DeviceProfile) :
  match __init__ set_layer_name_width layers isz total_input_size fmt dps with
  | Ok self => Z.even (total_output_bytes self) = true
  | Raise _ => layers = []
  end.
Proof.
  rewrite init_closed_form. destruct layers as [|l rest]; [reflexivity|].
  cbn [total_output_bytes].
  apply Zsum_even, Forall_map, Forall_forall. intros x _.
  unfold output_bytes_added.
  destruct (LayerInfo.is_leaf_layer x && (LayerInfo.num_params x >? 0)); [|reflexivity].
  rewrite Z.even_mul. apply orb_true_r.
Qed.

(** X21.  More records never lower the parameter totals: the object built
    from a sequence extended by further records has [total_params] and
    [trainable_params] at least those of the object built from the
    sequence. *)
Theorem totals_grow_with_records (l : LayerInfo.t Energy)
    (rest more : list (LayerInfo.t Energy)) (isz : InputSize)
    (total_input_size : Z) (fmt : FormattingOptions) (dps : list DeviceProfile) :
  exists self extended,
    __init__ set_layer_name_width (l :: rest) isz total_input_size fmt dps = Ok self /\
    __init__ set_layer_name_width ((l :: rest) ++ more) isz total_input_size fmt dps
    = Ok extended /\
    total_params self <= total_params extended /\
    trainable_params self <= trainable_params extended.
Proof.
  rewrite !init_closed_form. cbn [app].
  do 2 eexists. split; [reflexivity|]. split; [reflexivity|].
  cbn [total_params trainable_params].
  change (l :: rest ++ more) with ((l :: rest) ++ more).
  rewrite !map_app, !Zsum_app.
  destruct (added_nonneg more) as [Hp Ht]. lia.
Qed.
End Counters.
